(** * pybind11_protobuf: the reflection bridge of [proto_utils.cc],
      [proto_utils.h] and [proto.cc], embedded in Rocq.

    The C++ sources bind a protobuf runtime (descriptor pool, message
    factory, reflection, wire codec) to Python objects.  The runtime is an
    interface here ([Proto2]); Python objects are a small inductive type
    with attribute lookup; exceptions are values of [exn]; functions that
    mutate a message through a pointer pass the message explicitly. *)

From Stdlib Require Import ZArith Ascii String List Bool Lia.
From stdpp Require Import base option list gmap strings pretty.

Local Open Scope string_scope.
Local Open Scope Z_scope.

(** ** Exceptions *)

(** The C++ and Python exceptions the sources throw.  [type_error] is what
    pybind11 raises when an argument cannot be converted to the C++
    parameter type of a bound function; [cast_error] what [cast<T>]
    throws. *)
Inductive exn : Type :=
| invalid_argument (what : string)
| runtime_error (what : string)
| out_of_range (what : string)
| value_error (what : string)
| AttributeError (what : string)
| KeyError (key : string)
| type_error
| cast_error.

(** The double-quote character, for the messages that quote a name. *)
Definition dquote : string := String (Ascii.ascii_of_nat 34) EmptyString.

Inductive outcome (A : Type) : Type :=
| Returns (a : A)
| Throws (e : exn).
Arguments Returns {A} a.
Arguments Throws {A} e.

Definition throws {A} (o : outcome A) : bool :=
  match o with Returns _ => false | Throws _ => true end.

(** Code that mutates an object of type [S] in place and may throw: the
    object is threaded, and what was written before a throw stays. *)
Definition Eff (S A : Type) : Type := S -> S * outcome A.

Definition eret {S A} (a : A) : Eff S A := fun s => (s, Returns a).
Definition ethrow {S A} (e : exn) : Eff S A := fun s => (s, Throws e).
Definition ebind {S A B} (m : Eff S A) (k : A -> Eff S B) : Eff S B :=
  fun s => match m s with
           | (s', Returns a) => k a s'
           | (s', Throws e) => (s', Throws e)
           end.
Definition elift {S A} (o : outcome A) : Eff S A := fun s => (s, o).

Notation "'call' x '<-' m 'in' k" := (ebind m (fun x => k))
  (at level 10, x name, m at level 100, k at level 200, only parsing).
(** ** Descriptors (proto2::FieldDescriptor, proto2::Descriptor) *)

Inductive FieldType : Type :=
| TYPE_DOUBLE | TYPE_FLOAT | TYPE_INT64 | TYPE_UINT64 | TYPE_INT32
| TYPE_FIXED64 | TYPE_FIXED32 | TYPE_BOOL | TYPE_STRING | TYPE_GROUP
| TYPE_MESSAGE | TYPE_BYTES | TYPE_UINT32 | TYPE_ENUM | TYPE_SFIXED32
| TYPE_SFIXED64 | TYPE_SINT32 | TYPE_SINT64.

Inductive CppType : Type :=
| CPPTYPE_INT32 | CPPTYPE_INT64 | CPPTYPE_UINT32 | CPPTYPE_UINT64
| CPPTYPE_DOUBLE | CPPTYPE_FLOAT | CPPTYPE_BOOL | CPPTYPE_ENUM
| CPPTYPE_STRING | CPPTYPE_MESSAGE.

Inductive Label : Type :=
| LABEL_OPTIONAL | LABEL_REQUIRED | LABEL_REPEATED.

Global Instance FieldType_eq_dec : EqDecision FieldType.
Proof. solve_decision. Defined.
Global Instance CppType_eq_dec : EqDecision CppType.
Proof. solve_decision. Defined.
Global Instance Label_eq_dec : EqDecision Label.
Proof. solve_decision. Defined.

(** [fd_map_entry] is [message_type()->options().map_entry()], which the
    protobuf compiler sets on the synthesized entry type of a map field. *)
Record FieldDescriptor : Type := {
  fd_name : string;
  fd_type : FieldType;
  fd_label : Label;
  fd_map_entry : bool
}.

Record Descriptor : Type := {
  name : string;
  full_name : string;
  fields : list FieldDescriptor
}.

(** The library's kTypeToCppTypeMap: a group is stored as a message. *)
Definition cpp_type (fd : FieldDescriptor) : CppType :=
  match fd_type fd with
  | TYPE_DOUBLE => CPPTYPE_DOUBLE
  | TYPE_FLOAT => CPPTYPE_FLOAT
  | TYPE_INT64 | TYPE_SFIXED64 | TYPE_SINT64 => CPPTYPE_INT64
  | TYPE_UINT64 | TYPE_FIXED64 => CPPTYPE_UINT64
  | TYPE_INT32 | TYPE_SFIXED32 | TYPE_SINT32 => CPPTYPE_INT32
  | TYPE_UINT32 | TYPE_FIXED32 => CPPTYPE_UINT32
  | TYPE_BOOL => CPPTYPE_BOOL
  | TYPE_STRING | TYPE_BYTES => CPPTYPE_STRING
  | TYPE_GROUP | TYPE_MESSAGE => CPPTYPE_MESSAGE
  | TYPE_ENUM => CPPTYPE_ENUM
  end.

Definition is_repeated (fd : FieldDescriptor) : bool :=
  bool_decide (fd_label fd = LABEL_REPEATED).

Definition is_map (fd : FieldDescriptor) : bool :=
  bool_decide (fd_type fd = TYPE_MESSAGE) && fd_map_entry fd.

Fixpoint find_field (fs : list FieldDescriptor) (name : string)
  : option FieldDescriptor :=
  match fs with
  | [] => None
  | fd :: rest =>
      if bool_decide (fd_name fd = name) then Some fd else find_field rest name
  end.

Definition FindFieldByName (d : Descriptor) (name : string)
  : option FieldDescriptor :=
  find_field (fields d) name.

(** proto2::EnumValueDescriptor and proto2::EnumDescriptor: [enum_values]
    lists value(0) .. value(value_count() - 1). *)
Record EnumValueDescriptor : Type := {
  ev_name : string;
  ev_number : Z
}.

Record EnumDescriptor : Type := {
  enum_name : string;
  enum_values : list EnumValueDescriptor
}.

(** proto_utils.cc, EnumValuesByNumber: the loop stores each value under
    its number, in declaration order, so of two values with one number the
    later one stays. *)
Definition EnumValuesByNumber (enum_descriptor : EnumDescriptor)
  : gmap Z EnumValueDescriptor :=
  foldl (fun result value_desc => <[ev_number value_desc := value_desc]> result)
        ∅ (enum_values enum_descriptor).

(** ** The protobuf runtime, as the sources use it *)

(** [FieldSize] is [Reflection::FieldSize], never negative.
    [ParseFromString] clears the message, parses, and reports success; the
    message keeps what was parsed when it reports failure.  [options] is
    [Descriptor::options()], the options message of a type. *)
Class Proto2 : Type := {
  Message : Type;
  GetDescriptor : Message -> Descriptor;
  options : Descriptor -> Message;
  New : Message -> Message;
  SerializeAsString : Message -> string;
  ParseFromString : Message -> string -> Message * bool;
  FieldSize : Message -> FieldDescriptor -> nat;
  FindMessageTypeByName : string -> option Descriptor;
  GetPrototype : Descriptor -> option Message
}.

Definition GetTypeName `{Proto2} (m : Message) : string :=
  full_name (GetDescriptor m).

(** google.protobuf.Any, a generated message with two fields. *)
Record Any : Type := {
  type_url : string;
  value : string
}.

Definition set_type_url (s : string) (a : Any) : Any :=
  {| type_url := s; value := value a |}.
Definition set_value (s : string) (a : Any) : Any :=
  {| type_url := type_url a; value := s |}.

(** ** Python objects *)

(** The ten template arguments of BindEachFieldType, which are also the
    ten handler instances DispatchFieldDescriptor chooses from. *)
Inductive ElemType : Type :=
| T_int32 | T_int64 | T_uint32 | T_uint64 | T_float | T_double | T_bool
| T_string | T_Message | T_GenericEnum.

Global Instance ElemType_eq_dec : EqDecision ElemType.
Proof. solve_decision. Defined.

Section Bridge.
Context `{P2 : Proto2}.

(** The Python values the sources inspect.  [PyObject attrs] is an instance
    of some Python class with the attributes a lookup on it finds (a native
    Python proto is one of these); [PyMethod r] is a callable whose call
    with no arguments gives [r]; [PyWrapped m] is an instance of the bound
    class ProtoMessage holding [m], [PyBound m f] its method [f];
    [PyDescriptorView d] is an instance of the bound class Descriptor. *)
#[local] Unset Elimination Schemes.
Inductive PyObj : Type :=
| PyNone
| PyBool (b : bool)
| PyInt (z : Z)
| PyStr (s : string)
| PyBytes (s : string)
| PyList (l : list PyObj)
| PyDict (d : gmap string PyObj)
| PyMethod (r : outcome PyObj)
| PyObject (attrs : gmap string PyObj)
| PyDescriptorView (d : Descriptor)
| PyWrapped (m : Message)
| PyBound (m : Message) (f : string).
#[local] Set Elimination Schemes.

(** Keyword arguments arrive in call order, with text keys. *)
Definition kwargs : Type := list (string * PyObj).

(** Code of the repository that the sources at hand declare or call but do
    not define: the per-category field handlers that
    DispatchFieldDescriptor binds, MapFieldContainer<T>::SetItem, the
    functions bound as methods of ProtoMessage ([InvokeBound m f] is the
    C++ function bound under the name [f], called on [m] with no further
    argument), ProtoGetField behind __getattr__, and the generator of
    fields_by_name. *)
Class Handlers : Type := {
  SetProtoSingularField : ElemType -> FieldDescriptor -> PyObj -> Eff Message unit;
  SetProtoRepeatedField : ElemType -> FieldDescriptor -> PyObj -> Eff Message unit;
  MapFieldContainer_SetItem :
    ElemType -> FieldDescriptor -> PyObj -> PyObj -> Eff Message unit;
  InvokeBound : Message -> string -> outcome PyObj;
  ProtoGetField : Message -> string -> outcome PyObj;
  MessageFieldsByName : Descriptor -> PyObj
}.

Context `{H : Handlers}.

(** Modelled from the spec: DispatchFieldDescriptor, the template of
    proto_utils.h that is not among the sources.  It selects one of ten
    handlers by the field's storage category; groups are treated as
    messages. *)
Definition category (fd : FieldDescriptor) : ElemType :=
  match cpp_type fd with
  | CPPTYPE_INT32 => T_int32
  | CPPTYPE_INT64 => T_int64
  | CPPTYPE_UINT32 => T_uint32
  | CPPTYPE_UINT64 => T_uint64
  | CPPTYPE_DOUBLE => T_double
  | CPPTYPE_FLOAT => T_float
  | CPPTYPE_BOOL => T_bool
  | CPPTYPE_ENUM => T_GenericEnum
  | CPPTYPE_STRING => T_string
  | CPPTYPE_MESSAGE => T_Message
  end.

Definition DispatchFieldDescriptor {R : Type}
    (Handler : ElemType -> FieldDescriptor -> R) (fd : FieldDescriptor) : R :=
  Handler (category fd) fd.

(** *** proto_utils.h: the marker attribute *)

Definition kIsWrappedCProtoAttr : string := "_is_wrapped_c_proto".

(** *** proto.cc: what the bound classes expose *)

(** class_<proto2::Message>(m, "ProtoMessage"): two read-only properties,
    the bound methods, the pickle pair, and __getattr__ for any other
    name. *)
Definition ProtoMessage_methods : list string :=
  ["__repr__"; "__getattr__"; "__setattr__"; "SerializeToString";
   "ParseFromString"; "MergeFromString"; "ByteSize"; "Clear"; "CopyFrom";
   "MergeFrom"; "FindInitializationErrors"; "ListFields"; "HasField";
   "__getstate__"; "__setstate__"; "SetInParent"].

Definition ProtoMessage_getattr (m : Message) (attr : string) : option PyObj :=
  if bool_decide (attr = "DESCRIPTOR") then
    Some (PyDescriptorView (GetDescriptor m))
  else if bool_decide (attr = kIsWrappedCProtoAttr) then Some (PyBool true)
  else if bool_decide (attr ∈ ProtoMessage_methods) then Some (PyBound m attr)
  else match ProtoGetField m attr with
       | Returns o => Some o
       | Throws _ => None
       end.

(** class_<proto2::Descriptor>(m, "Descriptor", dynamic_attr()): the
    bound properties and GetOptions.  The attributes that dynamic_attr()
    lets the property wrapper store on an instance are in the store of
    DefConstantProperty below. *)
Definition Descriptor_getattr (d : Descriptor) (attr : string) : option PyObj :=
  if bool_decide (attr = "fields_by_name") then Some (MessageFieldsByName d)
  else if bool_decide (attr = "full_name") then Some (PyStr (full_name d))
  else if bool_decide (attr = "name") then Some (PyStr (name d))
  else if bool_decide (attr = "has_options") then Some (PyBool true)
  else if bool_decide (attr = "GetOptions") then
    Some (PyMethod (Returns (PyWrapped (options d))))
  else None.

(** Attribute lookup.  The built-in Python types have none of the
    attributes the sources ask for. *)
Definition py_getattr (o : PyObj) (attr : string) : option PyObj :=
  match o with
  | PyObject attrs => attrs !! attr
  | PyWrapped m => ProtoMessage_getattr m attr
  | PyDescriptorView d => Descriptor_getattr d attr
  | _ => None
  end.

Definition hasattr (o : PyObj) (attr : string) : bool :=
  bool_decide (is_Some (py_getattr o attr)).

(** Calling an attribute with no arguments. *)
Definition py_call (f : PyObj) : outcome PyObj :=
  match f with
  | PyMethod r => r
  | PyBound m g => InvokeBound m g
  | _ => Throws type_error
  end.

(** pybind11's isinstance<str> of the time accepts text and byte strings,
    and so does the caster of std::string. *)
Definition isinstance_str (o : PyObj) : bool :=
  match o with PyStr _ | PyBytes _ => true | _ => false end.

Definition cast_string (o : PyObj) : outcome string :=
  match o with
  | PyStr s | PyBytes s => Returns s
  | _ => Throws cast_error
  end.

(** std::string(o.cast<bytes>()): the cast to bytes does not look at the
    object, and the conversion to std::string fails on anything but a
    bytes object, with the runtime_error of pybind11_fail. *)
Definition cast_bytes (o : PyObj) : outcome string :=
  match o with
  | PyBytes s => Returns s
  | _ => Throws (runtime_error "Unable to extract bytes contents!")
  end.

(** Python's repr of a bytes object, which is also its str(): the letter
    b, a quote (the double quote when the bytes hold a single quote and no
    double quote), and the bytes with the quote, the backslash and what is
    not printable ASCII escaped. *)
Definition hex_digit (n : N) : ascii :=
  match String.get (N.to_nat n) "0123456789abcdef" with
  | Some c => c
  | None => "0"%char
  end.

Definition bytes_repr_byte (quote c : ascii) : string :=
  let backslash := Ascii.ascii_of_nat 92 in
  if bool_decide (c = quote) || bool_decide (c = backslash) then
    String backslash (String c EmptyString)
  else if bool_decide (c = Ascii.ascii_of_nat 9) then String backslash "t"
  else if bool_decide (c = Ascii.ascii_of_nat 10) then String backslash "n"
  else if bool_decide (c = Ascii.ascii_of_nat 13) then String backslash "r"
  else if (N_of_ascii c <? 32)%N || (127 <=? N_of_ascii c)%N then
    String backslash
      (String "x"%char
         (String (hex_digit (N.shiftr (N_of_ascii c) 4))
            (String (hex_digit (N.land (N_of_ascii c) 15)) EmptyString)))
  else String c EmptyString.

Fixpoint has_byte (c : ascii) (s : string) : bool :=
  match s with
  | EmptyString => false
  | String c' rest => bool_decide (c' = c) || has_byte c rest
  end.

Fixpoint bytes_repr_body (quote : ascii) (s : string) : string :=
  match s with
  | EmptyString => EmptyString
  | String c rest => bytes_repr_byte quote c +:+ bytes_repr_body quote rest
  end.

Definition bytes_repr (s : string) : string :=
  let single := "'"%char in
  let double := Ascii.ascii_of_nat 34 in
  let quote := if has_byte single s && negb (has_byte double s)
               then double else single in
  String "b"%char
    (String quote (bytes_repr_body quote s +:+ String quote EmptyString)).

(** std::string(str(o)) for an object that isinstance<str> accepts: the
    text of a str, and for a bytes object the text of its repr. *)
Definition str_text (o : PyObj) : outcome string :=
  match o with
  | PyStr s => Returns s
  | PyBytes s => Returns (bytes_repr s)
  | _ => Throws type_error
  end.

(** type_caster<int>: a Python int that fits a C int, or a bool. *)
Definition cast_int (o : PyObj) : option Z :=
  match o with
  | PyInt z => if (-2147483648 <=? z) && (z <=? 2147483647) then Some z else None
  | PyBool b => Some (if b then 1 else 0)
  | _ => None
  end.

Definition IsWrappedCProto (handle : PyObj) : bool :=
  hasattr handle kIsWrappedCProtoAttr.

(** *** proto_utils.cc *)

Definition PyProtoFullName (py_proto : PyObj) : outcome (option string) :=
  match py_getattr py_proto "DESCRIPTOR" with
  | Some descriptor =>
      match py_getattr descriptor "full_name" with
      | Some n =>
          match cast_string n with
          | Returns s => Returns (Some s)
          | Throws e => Throws e
          end
      | None => Returns None
      end
  | None => Returns None
  end.

Definition PyProtoCheckType (py_proto : PyObj) (expected_type : string)
  : outcome bool :=
  match PyProtoFullName py_proto with
  | Returns (Some optional_name) =>
      Returns (bool_decide (optional_name = expected_type))
  | Returns None => Returns false
  | Throws e => Throws e
  end.

Definition PyProtoSerializeToString (py_proto : PyObj) : outcome string :=
  match py_getattr py_proto "SerializeToString" with
  | Some f =>
      match py_call f with
      | Returns r => cast_string r
      | Throws e => Throws e
      end
  | None => Throws (invalid_argument "Passed python object is not a proto.")
  end.

Definition GetFieldDescriptor (message : Message) (name : string)
  : outcome FieldDescriptor :=
  match FindFieldByName (GetDescriptor message) name with
  | Some field_desc => Returns field_desc
  | None =>
      Throws (AttributeError ("'" +:+ GetTypeName message +:+
                              "' object has no attribute '" +:+ name +:+ "'"))
  end.

Definition ProtoSetAttr (name : string) (value : PyObj) : Eff Message unit :=
  fun message =>
    match GetFieldDescriptor message name with
    | Throws e => (message, Throws e)
    | Returns field_desc =>
        if is_map field_desc || is_repeated field_desc ||
           bool_decide (fd_type field_desc = TYPE_MESSAGE)
        then
          (message,
           Throws (AttributeError ("Assignment not allowed to field " +:+
                                   dquote +:+ name +:+ dquote +:+
                                   " in protocol message object.")))
        else
          DispatchFieldDescriptor SetProtoSingularField field_desc value message
    end.

(** The loop over the keyword arguments.  The branch for a map field is
    empty in the source. *)
Fixpoint ProtoInitAttrs (kwargs_in : kwargs) : Eff Message unit :=
  match kwargs_in with
  | [] => eret tt
  | (key, val) :: rest =>
      fun message =>
        match GetFieldDescriptor message key with
        | Throws e => (message, Throws e)
        | Returns field_desc =>
            (call _ <-
               (if is_map field_desc then eret tt
                else if is_repeated field_desc then
                  DispatchFieldDescriptor SetProtoRepeatedField field_desc val
                else
                  DispatchFieldDescriptor SetProtoSingularField field_desc val)
             in ProtoInitAttrs rest) message
        end
  end.

(** PyProtoAllocateMessage<proto2::Message>, bound as make_wrapped_c_proto.
    The message lives in a unique_ptr, so a throw returns none. *)
Definition PyProtoAllocateMessage (py_proto : PyObj) (kwargs_in : kwargs)
  : outcome Message :=
  let full_type_name : outcome string :=
    if isinstance_str py_proto then str_text py_proto
    else match PyProtoFullName py_proto with
         | Returns (Some optional_name) => Returns optional_name
         | Returns None =>
             Throws (invalid_argument "Could not get the name of the proto.")
         | Throws e => Throws e
         end in
  match full_type_name with
  | Throws e => Throws e
  | Returns full_type_name =>
      match FindMessageTypeByName full_type_name with
      | None =>
          Throws (runtime_error ("Proto Descriptor not found: " +:+ full_type_name))
      | Some descriptor =>
          match GetPrototype descriptor with
          | None =>
              Throws (runtime_error
                        ("Not able to generate prototype for descriptor of: "
                         +:+ full_type_name))
          | Some prototype =>
              match ProtoInitAttrs kwargs_in (New prototype) with
              | (message, Returns _) => Returns message
              | (_, Throws e) => Throws e
              end
          end
      end
  end.

Definition AnyPackFromPyProto (py_proto : PyObj) : Eff Any bool :=
  call optional_name <- elift (PyProtoFullName py_proto) in
  match optional_name with
  | None => eret false
  | Some n =>
      call _ <- (fun any_proto =>
                   (set_type_url ("type.googleapis.com/" +:+ n) any_proto,
                    Returns tt)) in
      call s <- elift (PyProtoSerializeToString py_proto) in
      fun any_proto => (set_value s any_proto, Returns true)
  end.

(** The base of the field containers: the parent message and the field. *)
Record ProtoFieldContainerBase : Type := {
  proto_ : Message;
  field_desc_ : FieldDescriptor
}.

Definition Size (c : ProtoFieldContainerBase) : Z :=
  Z.of_nat (FieldSize (proto_ c) (field_desc_ c)).

Definition CheckIndex (c : ProtoFieldContainerBase) (idx allowed_size : Z)
  : outcome unit :=
  let allowed_size := if allowed_size <? 0 then Size c else allowed_size in
  if (idx <? 0) || (idx >=? allowed_size) then
    Throws (out_of_range ("Bad index: " +:+ pretty idx +:+
                          " (max: " +:+ pretty (allowed_size - 1) +:+ ")"))
  else Returns tt.

(** *** proto_utils.h: MakePickler<proto2::Message> *)


Definition dict_getitem (d : gmap string PyObj) (key : string) : outcome PyObj :=
  match d !! key with
  | Some v => Returns v
  | None => Throws (KeyError key)
  end.

Definition pickle_setstate (d : gmap string PyObj) : outcome Message :=
  match dict_getitem d "type_name" with
  | Throws e => Throws e
  | Returns type_name =>
      match PyProtoAllocateMessage type_name [] with
      | Throws e => Throws e
      | Returns message =>
          match dict_getitem d "serialized" with
          | Throws e => Throws e
          | Returns serialized =>
              match cast_bytes serialized with
              | Throws e => Throws e
              | Returns data => Returns (fst (ParseFromString message data))
              end
          end
      end
  end.

(** Unpickling what [pickle_getstate] made: pybind11 hands the state to
    the second lambda when it is a dict. *)
Definition unpickle (state : PyObj) : outcome Message :=
  match state with
  | PyDict d => pickle_setstate d
  | _ => Throws type_error
  end.

(** *** proto.cc: bindings *)

(** Any.Pack. *)
Definition Any_Pack (py_proto : PyObj) : Eff Any unit :=
  call ok <- AnyPackFromPyProto py_proto in
  if ok : bool then eret tt
  else ethrow (invalid_argument "Failed to pack Any proto.").

(** MapFieldBindings<T>: what __setitem__ is bound to.  For
    T = proto2::Message it is the lambda (void*, int, handle), whose key
    parameter pybind11 converts before the body runs; the proxy aliases
    the field [fd] of the parent message, which is the state. *)
Definition MapFieldBindings_setitem (T : ElemType) (fd : FieldDescriptor)
    (key val : PyObj) : Eff Message unit :=
  if bool_decide (T = T_Message) then
    match cast_int key with
    | None => ethrow type_error
    | Some _ => ethrow (value_error "Cannot assign to message in a map field.")
    end
  else MapFieldContainer_SetItem T fd key val.

End Bridge.

(** ** More of proto_utils.h and proto.cc *)

Section BridgeMore.
Context `{P2 : Proto2} {H : Handlers}.

(** proto_utils.h, PyProtoAllocateAndCopyMessage<proto2::Message>: allocate
    by the type of [py_proto], then parse what [py_proto] serializes to;
    here the bool of ParseFromString decides. *)
Definition PyProtoAllocateAndCopyMessage (py_proto : PyObj) : outcome Message :=
  match PyProtoAllocateMessage py_proto [] with
  | Throws e => Throws e
  | Returns new_msg =>
      match PyProtoSerializeToString py_proto with
      | Throws e => Throws e
      | Returns data =>
          if snd (ParseFromString new_msg data)
          then Returns (fst (ParseFromString new_msg data))
          else Throws (runtime_error "Error copying message.")
      end
  end.

(** Whether a keyword names a map field of the type [d]. *)
Definition names_map_field (d : Descriptor) (key : string) : bool :=
  match FindFieldByName d key with
  | Some fd => is_map fd
  | None => false
  end.

(** What the Any bindings take from outside the repository:
    Any::ParseAnyTypeUrl, given the URL and what the out-parameter held,
    gives its bool and what the out-parameter holds afterwards;
    [PyObject_Str] is Python's str() on an object that is not a str. *)
Class AnyLibrary : Type := {
  ParseAnyTypeUrl : string -> string -> bool * string;
  PyObject_Str : PyObj -> outcome string
}.

Context {AL : AnyLibrary}.

(** static_cast<std::string>(str(o)). *)
Definition py_str (o : PyObj) : outcome string :=
  match o with
  | PyStr s => Returns s
  | _ => PyObject_Str o
  end.

(** proto.cc, the lambda bound as Any.Is.  getattr raises Python's
    AttributeError when the descriptor has no full_name; its text is
    Python's and stands here as the attribute name. *)
Definition Any_Is (self : Any) (descriptor : PyObj) : outcome bool :=
  let '(ok, name) := ParseAnyTypeUrl (type_url self) EmptyString in
  if negb ok then Returns false
  else match py_getattr descriptor "full_name" with
       | None => Throws (AttributeError "full_name")
       | Some n =>
           match py_str n with
           | Returns s => Returns (bool_decide (name = s))
           | Throws e => Throws e
           end
       end.

(** proto.cc, the lambda bound as Any.TypeName: the bool is dropped. *)
Definition Any_TypeName (self : Any) : string :=
  snd (ParseAnyTypeUrl (type_url self) EmptyString).

(** proto.cc, RepeatedFieldBindings<T>: the names the constructor defines
    and the member of RepeatedFieldContainer<T> each is bound to. *)
Inductive RepeatedMember : Type :=
| R_Add | R_SetItem | R_Repr | R_Size | R_GetItem | R_DelItem | R_Extend
| R_Append | R_Insert | R_Clear.

Definition RepeatedFieldBindings (T : ElemType) : list (string * RepeatedMember) :=
  (if bool_decide (T = T_Message) then [("add", R_Add)]
   else [("__setitem__", R_SetItem)]) ++
  [("__repr__", R_Repr); ("__len__", R_Size); ("__getitem__", R_GetItem);
   ("__delitem__", R_DelItem); ("MergeFrom", R_Extend); ("extend", R_Extend);
   ("append", R_Append); ("insert", R_Insert); ("clear", R_Clear)].

(** The member a method name of the class resolves to, if it is bound. *)
Fixpoint bound_member (bindings : list (string * RepeatedMember)) (method : string)
  : option RepeatedMember :=
  match bindings with
  | [] => None
  | (n, f) :: rest =>
      if bool_decide (n = method) then Some f else bound_member rest method
  end.

End BridgeMore.

(** proto.cc, BindEachFieldType: the class names registered for a prefix,
    each with its element type; MapFieldIteratorBindings appends
    "Iterator" to the name it is given. *)
Definition BindEachFieldType (name : string) : list (string * ElemType) :=
  [(name +:+ "Int32", T_int32); (name +:+ "Int64", T_int64);
   (name +:+ "UInt32", T_uint32); (name +:+ "UInt64", T_uint64);
   (name +:+ "Float", T_float); (name +:+ "Double", T_double);
   (name +:+ "Bool", T_bool); (name +:+ "String", T_string);
   (name +:+ "Message", T_Message); (name +:+ "Enum", T_GenericEnum)].

Definition MapFieldIteratorBindings_name (name : string) : string :=
  name +:+ "Iterator".

(** ** proto.cc: DefConstantProperty *)

(** The property wrapper reads and writes attributes of the Python object
    it is called on and hands out references, so this part has a store:
    references are numbers, every generator result becomes a new Python
    object at a fresh reference. *)
Abbreviation ref := positive.

Section ConstantProperty.
Variables Class Return : Type.

(** [instance_of] is pybind11's table from a Python wrapper to the C++
    object behind it, [attr_dict] the instance dictionaries that
    dynamic_attr() gives, [objects] the Python objects made from generator
    results.  [generator_log] is not program state: it records, newest
    first, for which object and property a generator was invoked. *)
Record PyHeap : Type := {
  instance_of : gmap ref Class;
  attr_dict : gmap (ref * string) ref;
  objects : gmap ref Return;
  next_ref : ref;
  generator_log : list (ref * string)
}.

Definition heap_hasattr (h : PyHeap) (o : ref) (attr : string) : bool :=
  bool_decide (is_Some (attr_dict h !! (o, attr))).

Definition heap_setattr (o : ref) (attr : string) (v : ref) : Eff PyHeap unit :=
  fun h =>
    ({| instance_of := instance_of h;
        attr_dict := <[(o, attr) := v]> (attr_dict h);
        objects := objects h;
        next_ref := next_ref h;
        generator_log := generator_log h |}, Returns tt).

Definition heap_getattr (o : ref) (attr : string) : Eff PyHeap ref :=
  fun h =>
    match attr_dict h !! (o, attr) with
    | Some v => (h, Returns v)
    | None => (h, Throws (AttributeError attr))
    end.

(** cast<Class>(pyinst). *)
Definition heap_cast (o : ref) : Eff PyHeap Class :=
  fun h =>
    match instance_of h !! o with
    | Some c => (h, Returns c)
    | None => (h, Throws cast_error)
    end.

(** Run the generator of property [name] for [pyinst] and turn its result
    into a Python object. *)
Definition invoke_generator (generator : Class -> Return) (c : Class)
    (pyinst : ref) (name : string) : Eff PyHeap ref :=
  fun h =>
    let r := next_ref h in
    ({| instance_of := instance_of h;
        attr_dict := attr_dict h;
        objects := <[r := generator c]> (objects h);
        next_ref := Pos.succ r;
        generator_log := (pyinst, name) :: generator_log h |}, Returns r).

(** The lambda [wrapper] of DefConstantProperty. *)
Definition DefConstantProperty_wrapper (name : string)
    (generator : Class -> Return) (pyinst : ref) : Eff PyHeap ref :=
  let cache_name := "_cache_" +:+ name in
  call _ <- (fun h =>
               if negb (heap_hasattr h pyinst cache_name) then
                 (call c <- heap_cast pyinst in
                  call result <- invoke_generator generator c pyinst name in
                  heap_setattr pyinst cache_name result) h
               else (h, Returns tt)) in
  heap_getattr pyinst cache_name.

(** A run of property reads, each the property [name] of the object
    [pyinst], where [props name] is the generator the property was defined
    with; the result lists what each read gave. *)
Fixpoint read_trace (props : string -> Class -> Return)
    (trace : list (string * ref)) (h : PyHeap) : PyHeap * list (outcome ref) :=
  match trace with
  | [] => (h, [])
  | (name, pyinst) :: rest =>
      let '(h1, o) := DefConstantProperty_wrapper name (props name) pyinst h in
      let '(h2, os) := read_trace props rest h1 in
      (h2, o :: os)
  end.

(** What holds of the store between reads: no generator was invoked twice
    for the same object and property, and every logged invocation left its
    result cached on the object. *)
Definition cache_inv (props : string -> Class -> Return) (h : PyHeap) : Prop :=
  NoDup (generator_log h) /\
  forall o name, (o, name) ∈ generator_log h ->
    exists r c,
      attr_dict h !! (o, "_cache_" +:+ name) = Some r /\
      instance_of h !! o = Some c /\
      objects h !! r = Some (props name c) /\
      (r < next_ref h)%positive.

(** How a later store relates to an earlier one: the same wrappers, the
    attributes kept, and every new cache attribute due to a logged
    invocation. *)
Definition grows (h h' : PyHeap) : Prop :=
  instance_of h' = instance_of h /\
  attr_dict h ⊆ attr_dict h' /\
  (forall x, x ∈ generator_log h -> x ∈ generator_log h') /\
  (forall o name,
      is_Some (attr_dict h' !! (o, "_cache_" +:+ name)) ->
      is_Some (attr_dict h !! (o, "_cache_" +:+ name)) \/
      (o, name) ∈ generator_log h').

End ConstantProperty.

Arguments instance_of {Class Return} _.
Arguments attr_dict {Class Return} _.
Arguments objects {Class Return} _.
Arguments next_ref {Class Return} _.
Arguments generator_log {Class Return} _.
Arguments heap_hasattr {Class Return} _ _ _.
Arguments heap_setattr {Class Return} _ _ _ _.
Arguments heap_getattr {Class Return} _ _ _.
Arguments heap_cast {Class Return} _ _.
Arguments invoke_generator {Class Return} _ _ _ _ _.
Arguments DefConstantProperty_wrapper {Class Return} _ _ _ _.
Arguments read_trace {Class Return} _ _ _.
Arguments cache_inv {Class Return} _ _.
Arguments grows {Class Return} _ _.

(** Every Python object made so far sits below the next fresh reference. *)
Definition heap_fresh {Class Return : Type} (h : PyHeap Class Return) : Prop :=
  forall r, is_Some (objects h !! r) -> (r < next_ref h)%positive.

(** ** A small runtime to run the definitions on *)

(** One registered type, pkg.Pair of the seed scenarios, and a proto2 type
    with a group.  A message is its descriptor and its wire bytes; every
    byte of the wire is one entry of the field whose name starts with it,
    and the byte '!' is malformed. *)
Module Toy.

Definition Pair : Descriptor :=
  {| name := "Pair"; full_name := "pkg.Pair";
     fields :=
       [ {| fd_name := "a"; fd_type := TYPE_INT32; fd_label := LABEL_OPTIONAL;
            fd_map_entry := false |};
         {| fd_name := "b"; fd_type := TYPE_STRING; fd_label := LABEL_OPTIONAL;
            fd_map_entry := false |};
         {| fd_name := "xs"; fd_type := TYPE_INT32; fd_label := LABEL_REPEATED;
            fd_map_entry := false |};
         {| fd_name := "m"; fd_type := TYPE_MESSAGE; fd_label := LABEL_REPEATED;
            fd_map_entry := true |} ] |}.

Definition Legacy : Descriptor :=
  {| name := "Legacy"; full_name := "pkg.Legacy";
     fields :=
       [ {| fd_name := "g"; fd_type := TYPE_GROUP; fd_label := LABEL_OPTIONAL;
            fd_map_entry := false |};
         {| fd_name := "sub"; fd_type := TYPE_MESSAGE; fd_label := LABEL_OPTIONAL;
            fd_map_entry := false |} ] |}.

Definition MessageOptions : Descriptor :=
  {| name := "MessageOptions"; full_name := "proto2.MessageOptions";
     fields := [] |}.

Record msg : Type := { desc : Descriptor; wire : string }.

Fixpoint parse (s : string) : string * bool :=
  match s with
  | EmptyString => (EmptyString, true)
  | String c rest =>
      if bool_decide (c = "!"%char) then (EmptyString, false)
      else let '(p, ok) := parse rest in (String c p, ok)
  end.

Fixpoint count_tag (c : ascii) (s : string) : nat :=
  match s with
  | EmptyString => O
  | String c' rest =>
      ((if bool_decide (c' = c) then 1 else 0) + count_tag c rest)%nat
  end.

Definition field_size (m : msg) (fd : FieldDescriptor) : nat :=
  match fd_name fd with
  | EmptyString => O
  | String c _ => count_tag c (wire m)
  end.

Definition pool (n : string) : option Descriptor :=
  if bool_decide (n = "pkg.Pair") then Some Pair
  else if bool_decide (n = "pkg.Legacy") then Some Legacy
  else None.

#[export] Instance runtime : Proto2 := {|
  Message := msg;
  GetDescriptor := desc;
  options := fun _ => {| desc := MessageOptions; wire := EmptyString |};
  New := fun m => {| desc := desc m; wire := EmptyString |};
  SerializeAsString := wire;
  ParseFromString := fun m s =>
    let '(p, ok) := parse s in ({| desc := desc m; wire := p |}, ok);
  FieldSize := field_size;
  FindMessageTypeByName := pool;
  GetPrototype := fun d => Some {| desc := d; wire := EmptyString |}
|}.

(** Handlers that add one entry to the field they are called for. *)
Definition add_entry (fd : FieldDescriptor) : Eff msg unit :=
  fun m =>
    ({| desc := desc m;
        wire := wire m +:+ match fd_name fd with
                           | EmptyString => EmptyString
                           | String c _ => String c EmptyString
                           end |}, Returns tt).

#[export] Instance handlers : Handlers := {|
  SetProtoSingularField := fun _ fd _ => add_entry fd;
  SetProtoRepeatedField := fun _ fd _ => add_entry fd;
  MapFieldContainer_SetItem := fun _ fd _ _ => add_entry fd;
  InvokeBound := fun m f =>
    if bool_decide (f = "SerializeToString") then Returns (PyBytes (wire m))
    else Throws type_error;
  ProtoGetField := fun m n =>
    Throws (AttributeError n);
  MessageFieldsByName := fun _ => PyDict ∅
|}.

(** A native Python proto of type pkg.Pair: it has DESCRIPTOR.full_name and
    SerializeToString. *)
Definition native_pair (bytes : string) : PyObj :=
  PyObject (<["DESCRIPTOR" := PyObject {["full_name" := PyStr "pkg.Pair"]}]>
            {["SerializeToString" := PyMethod (Returns (PyBytes bytes))]}).

(** An enum with an alias, and a store with one EnumDescriptor wrapper at
    reference 1 and no cache attribute yet. *)
Definition Color : EnumDescriptor :=
  {| enum_name := "Color";
     enum_values := [ {| ev_name := "RED"; ev_number := 0 |};
                      {| ev_name := "GREEN"; ev_number := 1 |};
                      {| ev_name := "CRIMSON"; ev_number := 0 |} ] |}.

Definition heap0 : PyHeap EnumDescriptor (gmap Z EnumValueDescriptor) :=
  {| instance_of := {[1%positive := Color]};
     attr_dict := ∅;
     objects := ∅;
     next_ref := 2%positive;
     generator_log := [] |}.

(** Inputs for the runs below. *)
Definition empty_pair : msg := {| desc := Pair; wire := EmptyString |}.
Definition empty_legacy : msg := {| desc := Legacy; wire := EmptyString |}.

Definition fd_xs : FieldDescriptor :=
  {| fd_name := "xs"; fd_type := TYPE_INT32; fd_label := LABEL_REPEATED;
     fd_map_entry := false |}.
Definition fd_m : FieldDescriptor :=
  {| fd_name := "m"; fd_type := TYPE_MESSAGE; fd_label := LABEL_REPEATED;
     fd_map_entry := true |}.
Definition fd_g : FieldDescriptor :=
  {| fd_name := "g"; fd_type := TYPE_GROUP; fd_label := LABEL_OPTIONAL;
     fd_map_entry := false |}.

(** The proxy of the field xs of a Pair with three entries in it. *)
Definition three_xs : ProtoFieldContainerBase :=
  {| proto_ := {| desc := Pair; wire := "xxx" |}; field_desc_ := fd_xs |}.

(** The keyword arguments m={"k": 9}. *)
Definition map_kwargs : kwargs := [("m", PyDict {["k" := PyInt 9]})].

(** The lazy property values_by_number of the EnumDescriptor class and
    three reads of it on the wrapper at reference 1. *)
Definition enum_props : string -> EnumDescriptor -> gmap Z EnumValueDescriptor :=
  fun _ => EnumValuesByNumber.
Definition three_reads : list (string * ref) :=
  [("values_by_number", 1%positive); ("values_by_number", 1%positive);
   ("values_by_number", 1%positive)].

(** A pickled state whose bytes are malformed after the first entry. *)
Definition bad_state : gmap string PyObj :=
  <["serialized" := PyBytes "a!x"]> {["type_name" := PyStr "pkg.Pair"]}.

(** Any::ParseAnyTypeUrl on the small runtime: the text after the last
    slash, when there is a slash and text after it. *)
Fixpoint after_last_slash (s : string) : option string :=
  match s with
  | EmptyString => None
  | String c rest =>
      match after_last_slash rest with
      | Some t => Some t
      | None => if bool_decide (c = "/"%char) then Some rest else None
      end
  end.

#[export] Instance any_library : AnyLibrary := {|
  ParseAnyTypeUrl := fun url held =>
    match after_last_slash url with
    | Some (String c t) => (true, String c t)
    | _ => (false, held)
    end;
  PyObject_Str := fun _ => Throws type_error
|}.

(** Keywords for a Pair: a scalar, a map, an unknown name, a repeated. *)
Definition mixed_kwargs : kwargs :=
  [("a", PyInt 3); ("m", PyDict {["k" := PyInt 9]}); ("xs", PyList [PyInt 1])].

(** A native Pair whose descriptor has a number for a name. *)
Definition odd_native : PyObj :=
  PyObject {["DESCRIPTOR" := PyObject {["full_name" := PyInt 5]}]}.

(** A native Pair without SerializeToString. *)
Definition mute_native : PyObj :=
  PyObject {["DESCRIPTOR" := PyObject {["full_name" := PyStr "pkg.Pair"]}]}.

(** A store where somebody has put reference 7 under the cache attribute
    of values_by_number on the wrapper at reference 1. *)
Definition preset_heap : PyHeap EnumDescriptor (gmap Z EnumValueDescriptor) :=
  {| instance_of := {[1%positive := Color]};
     attr_dict := {[(1%positive, "_cache_values_by_number") := 7%positive]};
     objects := ∅;
     next_ref := 2%positive;
     generator_log := [] |}.

(** The store after the three reads of values_by_number. *)
Definition cached_heap : PyHeap EnumDescriptor (gmap Z EnumValueDescriptor) :=
  fst (read_trace enum_props three_reads heap0).

(** An enum without aliases. *)
Definition Shade : EnumDescriptor :=
  {| enum_name := "Shade";
     enum_values := [ {| ev_name := "DARK"; ev_number := 2 |};
                      {| ev_name := "LIGHT"; ev_number := 5 |} ] |}.

End Toy.

(** ** Properties of the bridge *)

Section BridgeFacts.
Context `{P2 : Proto2} {H : Handlers}.

(** *** Keyword initialisation (ProtoInitAttrs) *)

Lemma ProtoInitAttrs_nil (message : Message) :
  ProtoInitAttrs [] message = (message, Returns tt).
Proof. reflexivity. Qed.

(** A keyword that names a map field is passed over: the loop goes on with
    the message as it was. *)
Lemma ProtoInitAttrs_map_keyword (message : Message) (key : string)
    (val : PyObj) (rest : kwargs) (fd : FieldDescriptor) :
  GetFieldDescriptor message key = Returns fd ->
  is_map fd = true ->
  ProtoInitAttrs ((key, val) :: rest) message = ProtoInitAttrs rest message.
Proof.
  intros Hfd Hmap. cbn [ProtoInitAttrs]. rewrite Hfd, Hmap. reflexivity.
Qed.

(** C1, at the input where the code departs from it: the branch of
    ProtoInitAttrs for a map field is empty, so a keyword that names a map
    field changes nothing and reports nothing; the map is not updated. *)
Theorem ProtoInitAttrs_map_keyword_ignored
    (message : Message) (key : string) (val : PyObj) (fd : FieldDescriptor) :
  GetFieldDescriptor message key = Returns fd ->
  is_map fd = true ->
  ProtoInitAttrs [(key, val)] message = (message, Returns tt).
Proof.
  intros Hfd Hmap.
  rewrite (ProtoInitAttrs_map_keyword message key val [] fd Hfd Hmap).
  apply ProtoInitAttrs_nil.
Qed.

Lemma ProtoInitAttrs_unknown_keyword (message : Message) (key : string)
    (val : PyObj) (rest : kwargs) :
  FindFieldByName (GetDescriptor message) key = None ->
  exists what,
    ProtoInitAttrs ((key, val) :: rest) message = (message, Throws (AttributeError what)).
Proof.
  intros Hnone. cbn [ProtoInitAttrs]. unfold GetFieldDescriptor.
  rewrite Hnone. eauto.
Qed.

(** *** Attribute assignment (ProtoSetAttr) *)

(** X8: map fields, repeated fields and fields of type TYPE_MESSAGE are
    refused, and the message is as before. *)
Lemma ProtoSetAttr_refused (message : Message) (name : string) (v : PyObj)
    (fd : FieldDescriptor) :
  GetFieldDescriptor message name = Returns fd ->
  is_map fd = true \/ is_repeated fd = true \/ fd_type fd = TYPE_MESSAGE ->
  ProtoSetAttr name v message =
    (message,
     Throws (AttributeError ("Assignment not allowed to field " +:+ dquote +:+
                             name +:+ dquote +:+
                             " in protocol message object."))).
Proof.
  intros Hfd Hkind. unfold ProtoSetAttr. rewrite Hfd.
  assert (is_map fd || is_repeated fd || bool_decide (fd_type fd = TYPE_MESSAGE)
          = true) as ->; [|reflexivity].
  destruct Hkind as [-> | [-> | Ht]]; [reflexivity | |].
  - rewrite orb_true_r. reflexivity.
  - rewrite (bool_decide_eq_true_2 _ Ht). apply orb_true_r.
Qed.

(** Singular fields of the other sixteen types go to the singular set
    handler of their category. *)
Lemma ProtoSetAttr_dispatched (message : Message) (name : string) (v : PyObj)
    (fd : FieldDescriptor) :
  GetFieldDescriptor message name = Returns fd ->
  is_repeated fd = false ->
  fd_type fd <> TYPE_MESSAGE ->
  ProtoSetAttr name v message = SetProtoSingularField (category fd) fd v message.
Proof.
  intros Hfd Hrep Ht. unfold ProtoSetAttr. rewrite Hfd, Hrep.
  unfold is_map. rewrite (bool_decide_eq_false_2 _ Ht). reflexivity.
Qed.

(** C2, at the input where the code departs from it: a singular group
    field has type TYPE_GROUP, so the guard of ProtoSetAttr, which compares
    the type with TYPE_MESSAGE, lets it through, and the assignment reaches
    the singular set handler of the message category instead of raising
    AttributeError. *)
Theorem ProtoSetAttr_group_reaches_handler (message : Message) (name : string)
    (v : PyObj) (fd : FieldDescriptor) :
  GetFieldDescriptor message name = Returns fd ->
  fd_type fd = TYPE_GROUP ->
  is_repeated fd = false ->
  category fd = T_Message /\
  ProtoSetAttr name v message = SetProtoSingularField T_Message fd v message.
Proof.
  intros Hfd Hgroup Hrep.
  assert (category fd = T_Message) as Hcat.
  { unfold category, cpp_type. rewrite Hgroup. reflexivity. }
  split; [exact Hcat|].
  rewrite (ProtoSetAttr_dispatched message name v fd Hfd Hrep).
  - rewrite Hcat. reflexivity.
  - rewrite Hgroup. discriminate.
Qed.

(** *** Index checking (ProtoFieldContainerBase::CheckIndex) *)

Lemma CheckIndex_accepts (c : ProtoFieldContainerBase) (idx allowed_size : Z) :
  allowed_size < 0 -> 0 <= idx < Size c ->
  CheckIndex c idx allowed_size = Returns tt.
Proof.
  intros Ha [Hlo Hhi]. unfold CheckIndex.
  rewrite (proj2 (Z.ltb_lt _ _) Ha).
  assert ((idx <? 0) = false) as -> by (apply Z.ltb_ge; lia).
  assert ((idx >=? Size c) = false) as -> by (rewrite Z.geb_leb; apply Z.leb_gt; lia).
  reflexivity.
Qed.

Lemma CheckIndex_rejects (c : ProtoFieldContainerBase) (idx allowed_size : Z) :
  allowed_size < 0 -> ~ (0 <= idx < Size c) ->
  CheckIndex c idx allowed_size =
    Throws (out_of_range ("Bad index: " +:+ pretty idx +:+
                          " (max: " +:+ pretty (Size c - 1) +:+ ")")).
Proof.
  intros Ha Hout. unfold CheckIndex.
  rewrite (proj2 (Z.ltb_lt _ _) Ha).
  destruct (idx <? 0) eqn:Hneg; [reflexivity|].
  apply Z.ltb_ge in Hneg.
  assert ((idx >=? Size c) = true) as ->; [|reflexivity].
  rewrite Z.geb_leb. apply Z.leb_le. lia.
Qed.

(** C3, amended: with the size taken from the field (a negative
    allowed_size), CheckIndex accepts exactly the indices of [0, n) and
    throws out_of_range for every other index, the negative ones of
    [-n, 0) included; it does no wrapping. *)
Theorem CheckIndex_range (c : ProtoFieldContainerBase) (idx allowed_size : Z) :
  allowed_size < 0 ->
  (CheckIndex c idx allowed_size = Returns tt <-> 0 <= idx < Size c) /\
  (idx < 0 \/ Size c <= idx ->
   exists what, CheckIndex c idx allowed_size = Throws (out_of_range what)).
Proof.
  intros Ha. split; [split|].
  - intros Hok. destruct (decide (0 <= idx < Size c)) as [Hin|Hout]; [exact Hin|].
    rewrite (CheckIndex_rejects c idx allowed_size Ha Hout) in Hok. discriminate.
  - apply CheckIndex_accepts; exact Ha.
  - intros Hout. eexists. apply CheckIndex_rejects; [exact Ha | lia].
Qed.

(** *** Map item assignment (MapFieldBindings) *)

(** C4: for T = proto2::Message, __setitem__ throws for every key and
    value (type_error when the key does not convert to int, value_error
    from the body otherwise) and the parent message is as before; for each
    of the nine other element types it is MapFieldContainer<T>::SetItem. *)
Theorem MapFieldBindings_setitem_spec (fd : FieldDescriptor) (key val : PyObj)
    (message : Message) :
  (exists e,
      MapFieldBindings_setitem T_Message fd key val message = (message, Throws e)
      /\ (e = type_error \/
          e = value_error "Cannot assign to message in a map field.")) /\
  Forall (fun T => MapFieldBindings_setitem T fd key val message
                   = MapFieldContainer_SetItem T fd key val message)
         [T_int32; T_int64; T_uint32; T_uint64; T_float; T_double; T_bool;
          T_string; T_GenericEnum].
Proof.
  split.
  - unfold MapFieldBindings_setitem. cbn.
    destruct (cast_int key); eexists; (split; [reflexivity|]); auto.
  - repeat constructor.
Qed.

(** *** Allocation by name (PyProtoAllocateMessage<proto2::Message>) *)

Lemma PyProtoFullName_none (py_proto : PyObj) :
  py_getattr py_proto "DESCRIPTOR" ≫= (fun d => py_getattr d "full_name") = None ->
  PyProtoFullName py_proto = Returns None.
Proof.
  intros Hdesc. unfold PyProtoFullName.
  destruct (py_getattr py_proto "DESCRIPTOR") as [d|]; [|reflexivity].
  cbn in Hdesc. rewrite Hdesc. reflexivity.
Qed.

(** C5: a name the pool does not know gives the runtime_error
    "Proto Descriptor not found"; an argument that is no string and has no
    DESCRIPTOR.full_name gives invalid_argument; both are throws, so no
    message is returned. *)
Theorem PyProtoAllocateMessage_errors (full_type_name : string)
    (py_proto : PyObj) (kwargs_in : kwargs) :
  FindMessageTypeByName full_type_name = None ->
  isinstance_str py_proto = false ->
  py_getattr py_proto "DESCRIPTOR" ≫= (fun d => py_getattr d "full_name") = None ->
  PyProtoAllocateMessage (PyStr full_type_name) kwargs_in
    = Throws (runtime_error ("Proto Descriptor not found: " +:+ full_type_name)) /\
  PyProtoAllocateMessage py_proto kwargs_in
    = Throws (invalid_argument "Could not get the name of the proto.").
Proof.
  intros Hpool Hstr Hdesc. split.
  - unfold PyProtoAllocateMessage. cbn. rewrite Hpool. reflexivity.
  - unfold PyProtoAllocateMessage.
    rewrite Hstr, (PyProtoFullName_none py_proto Hdesc). reflexivity.
Qed.

(** *** The marker attribute (IsWrappedCProto) *)

(** C10: is_wrapped_c_proto is true exactly when the attribute lookup
    succeeds, whatever the attribute holds, [False] included; a
    ProtoMessage instance has the attribute, with value [True]. *)
Theorem IsWrappedCProto_spec (obj v : PyObj) (attrs : gmap string PyObj)
    (m : Message) :
  (IsWrappedCProto obj = true <-> is_Some (py_getattr obj "_is_wrapped_c_proto")) /\
  IsWrappedCProto (PyObject (<["_is_wrapped_c_proto" := v]> attrs)) = true /\
  IsWrappedCProto (PyObject (<["_is_wrapped_c_proto" := PyBool false]> attrs)) = true /\
  py_getattr (PyWrapped m) "_is_wrapped_c_proto" = Some (PyBool true) /\
  IsWrappedCProto (PyWrapped m) = true.
Proof.
  assert (forall x, IsWrappedCProto
                      (PyObject (<["_is_wrapped_c_proto" := x]> attrs)) = true)
    as Hany.
  { intros x. unfold IsWrappedCProto, hasattr, kIsWrappedCProtoAttr. cbn.
    rewrite lookup_insert_eq. apply bool_decide_eq_true_2. eauto. }
  repeat split.
  - unfold IsWrappedCProto, hasattr. apply bool_decide_eq_true_1.
  - unfold IsWrappedCProto, hasattr. apply bool_decide_eq_true_2.
  - apply Hany.
  - apply Hany.
Qed.

(** *** Pickling (MakePickler<proto2::Message>) *)

Lemma PyProtoAllocateMessage_by_name (type_name : string) (d : Descriptor)
    (p : Message) :
  FindMessageTypeByName type_name = Some d ->
  GetPrototype d = Some p ->
  PyProtoAllocateMessage (PyStr type_name) [] = Returns (New p).
Proof.
  intros Hpool Hproto. unfold PyProtoAllocateMessage. cbn.
  rewrite Hpool, Hproto. reflexivity.
Qed.

(** The second lambda never looks at what ParseFromString reports. *)
Lemma pickle_setstate_parsed (dict : gmap string PyObj) (type_name data : string)
    (d : Descriptor) (p : Message) :
  dict !! "type_name" = Some (PyStr type_name) ->
  dict !! "serialized" = Some (PyBytes data) ->
  FindMessageTypeByName type_name = Some d ->
  GetPrototype d = Some p ->
  pickle_setstate dict = Returns (fst (ParseFromString (New p) data)).
Proof.
  intros Hname Hdata Hpool Hproto. unfold pickle_setstate, dict_getitem.
  rewrite Hname, (PyProtoAllocateMessage_by_name _ _ _ Hpool Hproto), Hdata.
  reflexivity.
Qed.



(** C9: when the bytes do not parse as the named type, unpickling still
    returns the message allocated for the type, holding what
    ParseFromString left in it; nothing is thrown. *)
Theorem unpickle_ignores_parse_failure (dict : gmap string PyObj)
    (type_name data : string) (d : Descriptor) (p : Message) :
  dict !! "type_name" = Some (PyStr type_name) ->
  dict !! "serialized" = Some (PyBytes data) ->
  FindMessageTypeByName type_name = Some d ->
  GetPrototype d = Some p ->
  snd (ParseFromString (New p) data) = false ->
  unpickle (PyDict dict) = Returns (fst (ParseFromString (New p) data)) /\
  throws (unpickle (PyDict dict)) = false.
Proof.
  intros Hname Hdata Hpool Hproto _. cbn [unpickle].
  rewrite (pickle_setstate_parsed dict _ _ d p Hname Hdata Hpool Hproto).
  split; reflexivity.
Qed.

(** *** Any.Pack *)

(** C7: for an argument with DESCRIPTOR.full_name and SerializeToString,
    Pack leaves the Any with the type URL made of the prefix and the full
    name and with the serialized bytes as value; for an argument [other]
    without DESCRIPTOR.full_name it throws invalid_argument and the Any is
    as before. *)
Theorem Any_Pack_spec (py_proto descriptor n f r other : PyObj)
    (full : string) (bytes : string) (any_proto : Any) :
  py_getattr py_proto "DESCRIPTOR" = Some descriptor ->
  py_getattr descriptor "full_name" = Some n ->
  cast_string n = Returns full ->
  py_getattr py_proto "SerializeToString" = Some f ->
  py_call f = Returns r ->
  cast_string r = Returns bytes ->
  py_getattr other "DESCRIPTOR" ≫= (fun d => py_getattr d "full_name") = None ->
  Any_Pack py_proto any_proto
    = ({| type_url := "type.googleapis.com/" +:+ full; value := bytes |},
       Returns tt) /\
  Any_Pack other any_proto
    = (any_proto, Throws (invalid_argument "Failed to pack Any proto.")).
Proof.
  intros Hd Hn Hfull Hf Hr Hbytes Hother. split.
  - unfold Any_Pack, AnyPackFromPyProto, ebind, elift, eret.
    unfold PyProtoFullName, PyProtoSerializeToString.
    rewrite Hd, Hn, Hfull, Hf, Hr, Hbytes. reflexivity.
  - unfold Any_Pack, AnyPackFromPyProto, ebind, elift, eret, ethrow.
    rewrite (PyProtoFullName_none other Hother). reflexivity.
Qed.

(** X18: an argument with DESCRIPTOR.full_name but no SerializeToString makes
    AnyPackFromPyProto throw after the type URL was written. *)
Lemma AnyPackFromPyProto_without_SerializeToString (py_proto descriptor n : PyObj)
    (full : string) (any_proto : Any) :
  py_getattr py_proto "DESCRIPTOR" = Some descriptor ->
  py_getattr descriptor "full_name" = Some n ->
  cast_string n = Returns full ->
  py_getattr py_proto "SerializeToString" = None ->
  AnyPackFromPyProto py_proto any_proto
    = (set_type_url ("type.googleapis.com/" +:+ full) any_proto,
       Throws (invalid_argument "Passed python object is not a proto.")).
Proof.
  intros Hd Hn Hfull Hser.
  unfold AnyPackFromPyProto, ebind, elift, PyProtoFullName,
    PyProtoSerializeToString.
  rewrite Hd, Hn, Hfull, Hser. reflexivity.
Qed.

End BridgeFacts.

(** ** Properties of DefConstantProperty *)

Section ConstantPropertyFacts.
Context {Class Return : Type}.
Implicit Types (h : PyHeap Class Return) (generator : Class -> Return).
Implicit Types (props : string -> Class -> Return).

(** With the cache attribute present the wrapper returns what it holds and
    touches nothing. *)
Lemma wrapper_cached name generator pyinst h r :
  attr_dict h !! (pyinst, "_cache_" +:+ name) = Some r ->
  DefConstantProperty_wrapper name generator pyinst h = (h, Returns r).
Proof.
  intros Hhit. unfold DefConstantProperty_wrapper, ebind, heap_hasattr, heap_getattr.
  rewrite Hhit. rewrite bool_decide_eq_true_2 by eauto.
  change (negb true) with false. cbv beta iota. rewrite Hhit. reflexivity.
Qed.

(** Without it, on a live wrapper, the generator runs, its result becomes
    a new object, and the attribute is set to the reference. *)
Lemma wrapper_first name generator pyinst h c :
  attr_dict h !! (pyinst, "_cache_" +:+ name) = None ->
  instance_of h !! pyinst = Some c ->
  DefConstantProperty_wrapper name generator pyinst h =
    ({| instance_of := instance_of h;
        attr_dict := <[(pyinst, "_cache_" +:+ name) := next_ref h]> (attr_dict h);
        objects := <[next_ref h := generator c]> (objects h);
        next_ref := Pos.succ (next_ref h);
        generator_log := (pyinst, name) :: generator_log h |},
     Returns (next_ref h)).
Proof.
  intros Hmiss Hlive.
  unfold DefConstantProperty_wrapper, ebind, heap_hasattr, heap_getattr,
    heap_cast, invoke_generator, heap_setattr.
  rewrite Hmiss, Hlive. rewrite bool_decide_eq_false_2 by (intros [? ?]; discriminate).
  change (negb false) with true. cbv beta iota.
  cbn [attr_dict instance_of objects next_ref generator_log].
  rewrite lookup_insert_eq. reflexivity.
Qed.

(** Without it, on an object that is no wrapper of the class, the cast
    throws and nothing changes. *)
Lemma wrapper_dead name generator pyinst h :
  attr_dict h !! (pyinst, "_cache_" +:+ name) = None ->
  instance_of h !! pyinst = None ->
  DefConstantProperty_wrapper name generator pyinst h = (h, Throws cast_error).
Proof.
  intros Hmiss Hdead.
  unfold DefConstantProperty_wrapper, ebind, heap_hasattr, heap_cast.
  rewrite Hmiss, Hdead. rewrite bool_decide_eq_false_2 by (intros [? ?]; discriminate).
  reflexivity.
Qed.

Lemma grows_refl h : grows h h.
Proof. unfold grows. repeat split; auto. Qed.

Lemma grows_trans h1 h2 h3 : grows h1 h2 -> grows h2 h3 -> grows h1 h3.
Proof.
  intros (Hi1 & Ha1 & Hl1 & Ho1) (Hi2 & Ha2 & Hl2 & Ho2).
  unfold grows. split; [congruence|]. split; [etrans; eassumption|].
  split; [auto|].
  intros o name Hsome. destruct (Ho2 o name Hsome) as [Hmid|Hlog]; [|auto].
  destruct (Ho1 o name Hmid) as [?|?]; auto.
Qed.

Lemma cache_name_inj (a b : string) : "_cache_" +:+ a = "_cache_" +:+ b -> a = b.
Proof. intros Heq. cbv [String.append] in Heq. congruence. Qed.

(** One read: the store grows, the invariant is kept, a returned reference
    is what the cache attribute then holds, and a live wrapper always gets
    a reference. *)
Lemma wrapper_step props name pyinst h :
  let '(h1, out) := DefConstantProperty_wrapper name (props name) pyinst h in
  grows h h1 /\
  (cache_inv props h -> cache_inv props h1) /\
  (forall r, out = Returns r ->
             attr_dict h1 !! (pyinst, "_cache_" +:+ name) = Some r) /\
  (is_Some (instance_of h !! pyinst) -> exists r, out = Returns r).
Proof.
  destruct (attr_dict h !! (pyinst, "_cache_" +:+ name)) as [r|] eqn:Hcache.
  { rewrite (wrapper_cached _ _ _ _ _ Hcache).
    split; [apply grows_refl|]. split; [auto|]. split; [congruence|eauto]. }
  destruct (instance_of h !! pyinst) as [c|] eqn:Hlive.
  2:{ rewrite (wrapper_dead _ _ _ _ Hcache Hlive).
      split; [apply grows_refl|]. split; [auto|]. split; [discriminate|].
      intros [? ?]; discriminate. }
  rewrite (wrapper_first _ _ _ _ _ Hcache Hlive).
  split; [|split; [|split]].
  - unfold grows. cbn [instance_of attr_dict generator_log].
    split; [reflexivity|]. split; [apply insert_subseteq; exact Hcache|].
    split; [intros x Hx; apply elem_of_cons; auto|].
    intros o nm Hsome. apply lookup_insert_is_Some in Hsome.
    destruct Hsome as [Heq | [_ Hold]]; [|auto].
    right. apply elem_of_cons. left.
    assert (pyinst = o) as -> by exact (f_equal fst Heq).
    assert (name = nm) as -> by (apply cache_name_inj; exact (f_equal snd Heq)).
    reflexivity.
  - intros [Hnodup Hlog]. unfold cache_inv.
    cbn [instance_of attr_dict objects next_ref generator_log]. split.
    + apply NoDup_cons. split; [|exact Hnodup].
      intros Hin. destruct (Hlog _ _ Hin) as (r & ? & Hr & _).
      congruence.
    + intros o nm Hin. apply elem_of_cons in Hin.
      destruct Hin as [Heq | Hin].
      * injection Heq as -> ->. exists (next_ref h), c.
        rewrite !lookup_insert_eq. repeat split; auto. lia.
      * destruct (Hlog _ _ Hin) as (r & c' & Hr & Hc' & Hobj & Hlt).
        exists r, c'. split; [|split; [exact Hc'|split; [|lia]]].
        -- rewrite lookup_insert_ne; [exact Hr|]. congruence.
        -- rewrite lookup_insert_ne; [exact Hobj|]. lia.
  - intros r Hr. injection Hr as <-. cbn [attr_dict]. apply lookup_insert_eq.
  - eauto.
Qed.

Lemma read_trace_cons props name pyinst rest h :
  read_trace props ((name, pyinst) :: rest) h =
    (fst (read_trace props rest
            (fst (DefConstantProperty_wrapper name (props name) pyinst h))),
     snd (DefConstantProperty_wrapper name (props name) pyinst h)
       :: snd (read_trace props rest
                 (fst (DefConstantProperty_wrapper name (props name) pyinst h)))).
Proof.
  cbn [read_trace].
  destruct (DefConstantProperty_wrapper name (props name) pyinst h) as [h1 out].
  cbn [fst snd]. destruct (read_trace props rest h1). reflexivity.
Qed.

Lemma read_trace_grows props trace h :
  grows h (fst (read_trace props trace h)) /\
  (cache_inv props h -> cache_inv props (fst (read_trace props trace h))).
Proof.
  revert h. induction trace as [|[name pyinst] rest IH]; intros h.
  - split; [apply grows_refl | auto].
  - rewrite read_trace_cons. cbn [fst].
    pose proof (wrapper_step props name pyinst h) as Hstep.
    destruct (DefConstantProperty_wrapper name (props name) pyinst h) as [h1 out].
    destruct Hstep as (Hgrow & Hinv & _). cbn [fst].
    destruct (IH h1) as [Hgrow' Hinv'].
    split; [eapply grows_trans; eassumption | auto].
Qed.

(** Once the attribute holds [r], every read of that property on that
    object returns [r]. *)
Lemma read_trace_cached props trace h name pyinst r j :
  attr_dict h !! (pyinst, "_cache_" +:+ name) = Some r ->
  trace !! j = Some (name, pyinst) ->
  snd (read_trace props trace h) !! j = Some (Returns r).
Proof.
  revert h j. induction trace as [|[n1 o1] rest IH]; intros h j Hcache Hj.
  - discriminate.
  - rewrite read_trace_cons. cbn [snd].
    pose proof (wrapper_step props n1 o1 h) as Hstep.
    destruct j as [|j].
    + injection Hj as -> ->.
      rewrite (wrapper_cached _ _ _ _ _ Hcache). reflexivity.
    + destruct (DefConstantProperty_wrapper n1 (props n1) o1 h) as [h1 out].
      destruct Hstep as ((_ & Hsub & _) & _). cbn [fst]. cbn in Hj |- *.
      apply IH; [|exact Hj]. eapply lookup_weaken; eassumption.
Qed.

Lemma read_trace_stable props trace h i j name pyinst r :
  (i <= j)%nat ->
  trace !! i = Some (name, pyinst) ->
  trace !! j = Some (name, pyinst) ->
  snd (read_trace props trace h) !! i = Some (Returns r) ->
  snd (read_trace props trace h) !! j = Some (Returns r).
Proof.
  revert h i j. induction trace as [|[n1 o1] rest IH]; intros h i j Hle Hi Hj.
  - discriminate.
  - rewrite read_trace_cons. cbn [snd].
    pose proof (wrapper_step props n1 o1 h) as Hstep.
    destruct (DefConstantProperty_wrapper n1 (props n1) o1 h) as [h1 out].
    destruct Hstep as (_ & _ & Hout & _). cbn [fst snd].
    destruct i as [|i].
    + injection Hi as -> ->. intros Hr. injection Hr as ->.
      destruct j as [|j]; [reflexivity|]. cbn in Hj |- *.
      eapply read_trace_cached; [apply Hout; reflexivity | exact Hj].
    + destruct j as [|j]; [lia|]. cbn in Hi, Hj |- *.
      apply IH; [lia | exact Hi | exact Hj].
Qed.

Lemma read_trace_computed props trace h name pyinst :
  (name, pyinst) ∈ trace ->
  is_Some (instance_of h !! pyinst) ->
  is_Some (attr_dict (fst (read_trace props trace h))
             !! (pyinst, "_cache_" +:+ name)).
Proof.
  revert h. induction trace as [|[n1 o1] rest IH]; intros h Hin Hlive.
  - apply elem_of_nil in Hin. destruct Hin.
  - rewrite read_trace_cons. cbn [fst].
    pose proof (wrapper_step props n1 o1 h) as Hstep.
    destruct (DefConstantProperty_wrapper n1 (props n1) o1 h) as [h1 out].
    destruct Hstep as ((Hinst & _) & _ & Hout & Hret). cbn [fst].
    apply elem_of_cons in Hin. destruct Hin as [Heq | Hin].
    + injection Heq as -> ->. destruct (Hret Hlive) as [r ->].
      destruct (read_trace_grows props rest h1) as [(_ & Hsub & _) _].
      exists r. eapply lookup_weaken; [apply Hout; reflexivity | exact Hsub].
    + apply IH; [exact Hin|]. rewrite Hinst. exact Hlive.
Qed.

(** One read never lowers the next fresh reference, and a cache attribute
    that it adds holds the reference that was fresh before it. *)
Lemma wrapper_fresh props name pyinst h :
  (next_ref h <= next_ref (fst (DefConstantProperty_wrapper name (props name) pyinst h)))%positive /\
  forall o nm r,
    attr_dict h !! (o, "_cache_" +:+ nm) = None ->
    attr_dict (fst (DefConstantProperty_wrapper name (props name) pyinst h))
      !! (o, "_cache_" +:+ nm) = Some r ->
    r = next_ref h.
Proof.
  destruct (attr_dict h !! (pyinst, "_cache_" +:+ name)) as [r0|] eqn:Hcache.
  { rewrite (wrapper_cached _ _ _ _ _ Hcache). cbn [fst].
    split; [lia|]. intros o nm r Hnone Hsome. congruence. }
  destruct (instance_of h !! pyinst) as [c|] eqn:Hlive.
  2:{ rewrite (wrapper_dead _ _ _ _ Hcache Hlive). cbn [fst].
      split; [lia|]. intros o nm r Hnone Hsome. congruence. }
  rewrite (wrapper_first _ _ _ _ _ Hcache Hlive). cbn [fst next_ref attr_dict].
  split; [lia|]. intros o nm r Hnone Hsome.
  apply lookup_insert_Some in Hsome. destruct Hsome as [[_ <-] | [_ Hold]];
    [reflexivity | congruence].
Qed.

(** A reference cached during a run was fresh when the run started. *)
Lemma read_trace_fresh_ref props trace h o nm r :
  attr_dict h !! (o, "_cache_" +:+ nm) = None ->
  attr_dict (fst (read_trace props trace h)) !! (o, "_cache_" +:+ nm) = Some r ->
  (next_ref h <= r)%positive.
Proof.
  revert h. induction trace as [|[n1 o1] rest IH]; intros h Hnone Hsome.
  - cbn in Hsome. congruence.
  - rewrite read_trace_cons in Hsome. cbn [fst] in Hsome.
    destruct (wrapper_fresh props n1 o1 h) as [Hle Hadded].
    destruct (read_trace_grows props rest
                (fst (DefConstantProperty_wrapper n1 (props n1) o1 h)))
      as [(_ & Hsub & _) _].
    destruct (attr_dict (fst (DefConstantProperty_wrapper n1 (props n1) o1 h))
                !! (o, "_cache_" +:+ nm)) as [r1|] eqn:Hmid.
    + pose proof (lookup_weaken _ _ _ _ Hmid Hsub) as Hend.
      rewrite Hend in Hsome. injection Hsome as <-.
      rewrite (Hadded o nm r1 Hnone Hmid). lia.
    + specialize (IH _ Hmid Hsome). lia.
Qed.

(** A read on a live wrapper returns a reference, and it is the one the
    cache attribute holds when the run is over. *)
Lemma read_trace_returns_cached props trace h j name pyinst :
  trace !! j = Some (name, pyinst) ->
  is_Some (instance_of h !! pyinst) ->
  exists r,
    snd (read_trace props trace h) !! j = Some (Returns r) /\
    attr_dict (fst (read_trace props trace h))
      !! (pyinst, "_cache_" +:+ name) = Some r.
Proof.
  revert h j. induction trace as [|[n1 o1] rest IH]; intros h j Hj Hlive.
  - discriminate.
  - rewrite read_trace_cons. cbn [fst snd].
    pose proof (wrapper_step props n1 o1 h) as Hstep.
    destruct (DefConstantProperty_wrapper n1 (props n1) o1 h) as [h1 out].
    destruct Hstep as ((Hinst & _) & _ & Hout & Hret). cbn [fst snd].
    destruct j as [|j].
    + injection Hj as -> ->. destruct (Hret Hlive) as [r ->].
      exists r. split; [reflexivity|].
      destruct (read_trace_grows props rest h1) as [(_ & Hsub & _) _].
      eapply lookup_weaken; [apply Hout; reflexivity | exact Hsub].
    + cbn in Hj |- *. apply IH; [exact Hj|]. rewrite Hinst. exact Hlive.
Qed.

(** C8: over any run of reads of lazy properties, on any objects and in any
    order, starting with no generator invoked: no generator is invoked
    twice for the same object and property; every read on a live wrapper
    returns the reference that the cache attribute of that property holds
    on that object; when the object had no such attribute at the start,
    the generator was invoked for it and the reference is that of the new
    object made from its result, fresh during the run; and a read that
    returned a reference is followed only by reads of that property on
    that object that return the same reference. *)
Theorem DefConstantProperty_caches (props : string -> Class -> Return)
    (trace : list (string * ref)) (h : PyHeap Class Return) :
  generator_log h = [] ->
  NoDup (generator_log (fst (read_trace props trace h))) /\
  (forall j name pyinst c,
      trace !! j = Some (name, pyinst) ->
      instance_of h !! pyinst = Some c ->
      exists r,
        snd (read_trace props trace h) !! j = Some (Returns r) /\
        attr_dict (fst (read_trace props trace h))
          !! (pyinst, "_cache_" +:+ name) = Some r /\
        (forall r0, attr_dict h !! (pyinst, "_cache_" +:+ name) = Some r0 -> r = r0) /\
        (attr_dict h !! (pyinst, "_cache_" +:+ name) = None ->
         (pyinst, name) ∈ generator_log (fst (read_trace props trace h)) /\
         objects (fst (read_trace props trace h)) !! r = Some (props name c) /\
         (next_ref h <= r < next_ref (fst (read_trace props trace h)))%positive)) /\
  (forall i j name pyinst r,
      (i <= j)%nat ->
      trace !! i = Some (name, pyinst) ->
      trace !! j = Some (name, pyinst) ->
      snd (read_trace props trace h) !! i = Some (Returns r) ->
      snd (read_trace props trace h) !! j = Some (Returns r)) /\
  (forall name pyinst c,
      (name, pyinst) ∈ trace ->
      instance_of h !! pyinst = Some c ->
      exists r,
        attr_dict (fst (read_trace props trace h))
          !! (pyinst, "_cache_" +:+ name) = Some r /\
        (attr_dict h !! (pyinst, "_cache_" +:+ name) = None ->
         (pyinst, name) ∈ generator_log (fst (read_trace props trace h)) /\
         objects (fst (read_trace props trace h)) !! r = Some (props name c))).
Proof.
  intros Hlog.
  assert (cache_inv props h) as Hinv0.
  { unfold cache_inv. rewrite Hlog. split; [apply NoDup_nil_2|].
    intros o name Hin. apply elem_of_nil in Hin. destruct Hin. }
  destruct (read_trace_grows props trace h) as [Hgrow Hinv].
  specialize (Hinv Hinv0). destruct Hinv as [Hnodup Hlogged].
  destruct Hgrow as (Hinst & Hsub & _ & Horigin).
  assert (forall name pyinst c r,
             instance_of h !! pyinst = Some c ->
             attr_dict h !! (pyinst, "_cache_" +:+ name) = None ->
             attr_dict (fst (read_trace props trace h))
               !! (pyinst, "_cache_" +:+ name) = Some r ->
             (pyinst, name) ∈ generator_log (fst (read_trace props trace h)) /\
             objects (fst (read_trace props trace h)) !! r = Some (props name c) /\
             (next_ref h <= r < next_ref (fst (read_trace props trace h)))%positive)
    as Hmade.
  { intros name pyinst c r Hlive Hnone Hr.
    destruct (Horigin pyinst name) as [[? Hold] | Hgen]; [eauto | congruence |].
    split; [exact Hgen|].
    destruct (Hlogged _ _ Hgen) as (r' & c' & Hr' & Hc' & Hobj & Hlt).
    rewrite Hinst in Hc'.
    assert (r' = r) as -> by congruence. assert (c' = c) as -> by congruence.
    split; [exact Hobj|]. split; [|exact Hlt].
    eapply read_trace_fresh_ref; eassumption. }
  split; [exact Hnodup|]. split; [|split].
  - intros j name pyinst c Hj Hlive.
    destruct (read_trace_returns_cached props trace h j name pyinst Hj)
      as (r & Hout & Hr); [eauto|].
    exists r. split; [exact Hout|]. split; [exact Hr|]. split.
    + intros r0 Hr0. pose proof (lookup_weaken _ _ _ _ Hr0 Hsub). congruence.
    + intros Hnone. eapply Hmade; eassumption.
  - intros i j name pyinst r. apply read_trace_stable.
  - intros name pyinst c Hin Hlive.
    destruct (read_trace_computed props trace h name pyinst Hin) as [r Hr];
      [eauto|].
    exists r. split; [exact Hr|]. intros Hnone.
    destruct (Hmade name pyinst c r Hlive Hnone Hr) as (? & ? & _). auto.
Qed.

End ConstantPropertyFacts.

(** ** More properties of the bridge *)

Section MoreBridgeFacts.
Context `{P2 : Proto2} {H : Handlers}.

(** *** Keyword initialisation, continued *)

(** X4: keywords are applied one after the other: initialising from [a ++ b]
    is initialising from [a] and, if that did not throw, from [b] on the
    message it left; a throw in [a] keeps what was written and skips
    [b]. *)
Theorem ProtoInitAttrs_app (a b : kwargs) (message : Message) :
  ProtoInitAttrs (a ++ b)%list message
  = match ProtoInitAttrs a message with
    | (message', Returns _) => ProtoInitAttrs b message'
    | (message', Throws e) => (message', Throws e)
    end.
Proof.
  revert message. induction a as [|[key val] rest IH]; intros message.
  - reflexivity.
  - cbn [app ProtoInitAttrs].
    destruct (GetFieldDescriptor message key) as [fd|e]; [|reflexivity].
    match goal with |- context [ebind ?s _] => generalize s end.
    intros step. unfold ebind.
    destruct (step message) as [m1 [[]|e]]; [apply IH | reflexivity].
Qed.



(** X7: the keywords that name map fields can be left out without changing
    what the initialisation does, wherever they stand among the others,
    as long as the set handlers do not change the type of the message. *)
Theorem ProtoInitAttrs_skips_map_keywords (kwargs_in : kwargs) (message : Message) :
  (forall T fd v m,
      GetDescriptor (fst (SetProtoSingularField T fd v m)) = GetDescriptor m) ->
  (forall T fd v m,
      GetDescriptor (fst (SetProtoRepeatedField T fd v m)) = GetDescriptor m) ->
  ProtoInitAttrs kwargs_in message
  = ProtoInitAttrs
      (List.filter
         (fun kv => negb (names_map_field (GetDescriptor message) (fst kv)))
         kwargs_in)
      message.
Proof.
  intros Hsingular Hrepeated. revert message.
  induction kwargs_in as [|[key val] rest IH]; intros message; [reflexivity|].
  cbn [List.filter fst]. unfold names_map_field at 1.
  destruct (FindFieldByName (GetDescriptor message) key) as [fd|] eqn:Hfind.
  - destruct (is_map fd) eqn:Hmap.
    + cbn [negb].
      rewrite (ProtoInitAttrs_map_keyword message key val rest fd);
        [apply IH | unfold GetFieldDescriptor; rewrite Hfind; reflexivity | exact Hmap].
    + cbn [negb ProtoInitAttrs]. unfold GetFieldDescriptor. rewrite Hfind, Hmap.
      unfold ebind, DispatchFieldDescriptor.
      destruct (is_repeated fd).
      * pose proof (Hrepeated (category fd) fd val message) as Hd.
        destruct (SetProtoRepeatedField (category fd) fd val message) as [m1 [[]|e]];
          [|reflexivity].
        cbn [fst] in Hd. rewrite <- Hd. apply IH.
      * pose proof (Hsingular (category fd) fd val message) as Hd.
        destruct (SetProtoSingularField (category fd) fd val message) as [m1 [[]|e]];
          [|reflexivity].
        cbn [fst] in Hd. rewrite <- Hd. apply IH.
  - cbn [negb ProtoInitAttrs]. unfold GetFieldDescriptor. rewrite Hfind. reflexivity.
Qed.

(** *** Attribute assignment, continued *)


(** X10: for a singular field that is not of type TYPE_MESSAGE, assigning the
    attribute and initialising from the one keyword are the same
    operation; for a repeated or TYPE_MESSAGE field that is no map, the
    keyword reaches a set handler while the assignment is refused. *)
Theorem ProtoSetAttr_vs_ProtoInitAttrs (message : Message) (name : string)
    (v : PyObj) (fd : FieldDescriptor) :
  GetFieldDescriptor message name = Returns fd ->
  is_map fd = false ->
  (is_repeated fd = false -> fd_type fd <> TYPE_MESSAGE ->
   ProtoInitAttrs [(name, v)] message = ProtoSetAttr name v message) /\
  (is_repeated fd = true ->
   ProtoInitAttrs [(name, v)] message
     = SetProtoRepeatedField (category fd) fd v message /\
   throws (snd (ProtoSetAttr name v message)) = true) /\
  (is_repeated fd = false -> fd_type fd = TYPE_MESSAGE ->
   ProtoInitAttrs [(name, v)] message
     = SetProtoSingularField T_Message fd v message /\
   throws (snd (ProtoSetAttr name v message)) = true).
Proof.
  intros Hfd Hmap.
  assert (forall (step : Eff Message unit),
             ebind step (fun _ => ProtoInitAttrs []) message = step message) as Hunit.
  { intros step. unfold ebind. destruct (step message) as [m1 [[]|e]]; reflexivity. }
  assert (is_repeated fd = true \/ fd_type fd = TYPE_MESSAGE ->
          throws (snd (ProtoSetAttr name v message)) = true) as Hrefused.
  { intros Hkind. unfold ProtoSetAttr. rewrite Hfd, Hmap. cbn [orb].
    destruct Hkind as [-> | Htype]; [reflexivity|].
    rewrite (bool_decide_eq_true_2 _ Htype), orb_true_r. reflexivity. }
  split; [|split].
  - intros Hrep Htype.
    rewrite (ProtoSetAttr_dispatched message name v fd Hfd Hrep Htype).
    cbn [ProtoInitAttrs]. rewrite Hfd, Hmap, Hrep. apply Hunit.
  - intros Hrep. split.
    + cbn [ProtoInitAttrs]. rewrite Hfd, Hmap, Hrep. apply Hunit.
    + apply Hrefused. auto.
  - intros Hrep Htype. split.
    + cbn [ProtoInitAttrs]. rewrite Hfd, Hmap, Hrep. rewrite Hunit.
      unfold DispatchFieldDescriptor, category, cpp_type. rewrite Htype. reflexivity.
    + apply Hrefused. auto.
Qed.

(** *** Naming a type by an object *)

Lemma PyProtoFullName_wrapped (w : Message) :
  PyProtoFullName (PyWrapped w) = Returns (Some (GetTypeName w)).
Proof. reflexivity. Qed.

Lemma PyProtoFullName_native (py_proto descriptor : PyObj) (n : string) :
  py_getattr py_proto "DESCRIPTOR" = Some descriptor ->
  py_getattr descriptor "full_name" = Some (PyStr n) ->
  PyProtoFullName py_proto = Returns (Some n).
Proof. intros Hd Hn. unfold PyProtoFullName. rewrite Hd, Hn. reflexivity. Qed.

(** X11: make_wrapped_c_proto treats a wrapped message, and any object that is
    no string and has DESCRIPTOR.full_name, as the name of its type: the
    result is that of the call with the name. *)
Theorem PyProtoAllocateMessage_by_instance (w : Message) (py_proto descriptor : PyObj)
    (n : string) (kwargs_in : kwargs) :
  isinstance_str py_proto = false ->
  py_getattr py_proto "DESCRIPTOR" = Some descriptor ->
  py_getattr descriptor "full_name" = Some (PyStr n) ->
  PyProtoAllocateMessage (PyWrapped w) kwargs_in
    = PyProtoAllocateMessage (PyStr (GetTypeName w)) kwargs_in /\
  PyProtoAllocateMessage py_proto kwargs_in
    = PyProtoAllocateMessage (PyStr n) kwargs_in.
Proof.
  intros Hstr Hd Hn. split.
  - unfold PyProtoAllocateMessage. cbn [isinstance_str str_text].
    rewrite PyProtoFullName_wrapped. reflexivity.
  - unfold PyProtoAllocateMessage. rewrite Hstr. cbn [isinstance_str str_text].
    rewrite (PyProtoFullName_native py_proto descriptor n Hd Hn). reflexivity.
Qed.

(** X12: PyProtoCheckType compares the type name of a wrapped message with the
    expected one, and answers false, without throwing, for an object that
    has no DESCRIPTOR.full_name. *)
Theorem PyProtoCheckType_spec (w : Message) (other : PyObj) (expected_type : string) :
  py_getattr other "DESCRIPTOR" ≫= (fun d => py_getattr d "full_name") = None ->
  PyProtoCheckType (PyWrapped w) expected_type
    = Returns (bool_decide (GetTypeName w = expected_type)) /\
  PyProtoCheckType other expected_type = Returns false.
Proof.
  intros Hother. split.
  - unfold PyProtoCheckType. rewrite PyProtoFullName_wrapped. reflexivity.
  - unfold PyProtoCheckType. rewrite (PyProtoFullName_none other Hother). reflexivity.
Qed.

(** *** Allocate and copy *)

Lemma PyProtoAllocateAndCopyMessage_proto (py_proto descriptor f r : PyObj)
    (n data : string) (d : Descriptor) (p : Message) :
  isinstance_str py_proto = false ->
  py_getattr py_proto "DESCRIPTOR" = Some descriptor ->
  py_getattr descriptor "full_name" = Some (PyStr n) ->
  py_getattr py_proto "SerializeToString" = Some f ->
  py_call f = Returns r ->
  cast_string r = Returns data ->
  FindMessageTypeByName n = Some d ->
  GetPrototype d = Some p ->
  PyProtoAllocateAndCopyMessage py_proto
  = if snd (ParseFromString (New p) data)
    then Returns (fst (ParseFromString (New p) data))
    else Throws (runtime_error "Error copying message.").
Proof.
  intros Hstr Hd Hn Hf Hr Hdata Hpool Hproto.
  unfold PyProtoAllocateAndCopyMessage, PyProtoAllocateMessage.
  rewrite Hstr, (PyProtoFullName_native py_proto descriptor n Hd Hn), Hpool, Hproto.
  cbn [ProtoInitAttrs eret]. unfold PyProtoSerializeToString.
  rewrite Hf, Hr, Hdata. reflexivity.
Qed.

(** X13: copying from a proto-like object parses its bytes into a fresh message
    of its type, and, unlike unpickling, reports bytes that do not parse:
    the result is the parsed message when ParseFromString says true and
    the runtime_error "Error copying message." when it says false. *)
Theorem PyProtoAllocateAndCopyMessage_parses (py_proto descriptor f r : PyObj)
    (n data : string) (d : Descriptor) (p : Message) :
  isinstance_str py_proto = false ->
  py_getattr py_proto "DESCRIPTOR" = Some descriptor ->
  py_getattr descriptor "full_name" = Some (PyStr n) ->
  py_getattr py_proto "SerializeToString" = Some f ->
  py_call f = Returns r ->
  cast_string r = Returns data ->
  FindMessageTypeByName n = Some d ->
  GetPrototype d = Some p ->
  (snd (ParseFromString (New p) data) = true ->
   PyProtoAllocateAndCopyMessage py_proto
     = Returns (fst (ParseFromString (New p) data))) /\
  (snd (ParseFromString (New p) data) = false ->
   PyProtoAllocateAndCopyMessage py_proto
     = Throws (runtime_error "Error copying message.")).
Proof.
  intros Hstr Hd Hn Hf Hr Hdata Hpool Hproto.
  rewrite (PyProtoAllocateAndCopyMessage_proto py_proto descriptor f r n data d p
             Hstr Hd Hn Hf Hr Hdata Hpool Hproto).
  split; intros ->; reflexivity.
Qed.

(** X14: copying a wrapped message whose SerializeToString gives its bytes
    yields a message that serializes to the same bytes, when the type is
    registered and the codec reads back what it wrote. *)
Theorem PyProtoAllocateAndCopyMessage_wrapped (w : Message) (d : Descriptor)
    (p : Message) :
  InvokeBound w "SerializeToString" = Returns (PyBytes (SerializeAsString w)) ->
  FindMessageTypeByName (GetTypeName w) = Some d ->
  GetPrototype d = Some p ->
  snd (ParseFromString (New p) (SerializeAsString w)) = true ->
  SerializeAsString (fst (ParseFromString (New p) (SerializeAsString w)))
    = SerializeAsString w ->
  exists copy,
    PyProtoAllocateAndCopyMessage (PyWrapped w) = Returns copy /\
    SerializeAsString copy = SerializeAsString w.
Proof.
  intros Hser Hpool Hproto Hok Hcodec.
  rewrite (PyProtoAllocateAndCopyMessage_proto (PyWrapped w)
             (PyDescriptorView (GetDescriptor w))
             (PyBound w "SerializeToString") (PyBytes (SerializeAsString w))
             (GetTypeName w) (SerializeAsString w) d p);
    try reflexivity; try assumption.
  rewrite Hok. eauto.
Qed.

(** X15: a bare type name cannot be copied from: whatever the string, the call
    throws, and for a registered type the throw is the invalid_argument of
    PyProtoSerializeToString, raised after the message was allocated. *)
Theorem PyProtoAllocateAndCopyMessage_of_name (n : string) :
  throws (PyProtoAllocateAndCopyMessage (PyStr n)) = true /\
  (forall d p,
      FindMessageTypeByName n = Some d -> GetPrototype d = Some p ->
      PyProtoAllocateAndCopyMessage (PyStr n)
        = Throws (invalid_argument "Passed python object is not a proto.")).
Proof.
  split.
  - unfold PyProtoAllocateAndCopyMessage.
    destruct (PyProtoAllocateMessage (PyStr n) []); reflexivity.
  - intros d p Hpool Hproto. unfold PyProtoAllocateAndCopyMessage.
    rewrite (PyProtoAllocateMessage_by_name n d p Hpool Hproto). reflexivity.
Qed.

(** *** Unpickling, the failures *)

(** X16: the second lambda of the pickler raises KeyError for a state without
    "type_name"; with a registered type, KeyError for a state without
    "serialized", and for a "serialized" that is text, not bytes, the
    runtime_error of the conversion from bytes to std::string. *)
Theorem pickle_setstate_errors (no_name no_data text_data : gmap string PyObj)
    (type_name s : string) (d : Descriptor) (p : Message) :
  no_name !! "type_name" = None ->
  no_data !! "type_name" = Some (PyStr type_name) ->
  no_data !! "serialized" = None ->
  text_data !! "type_name" = Some (PyStr type_name) ->
  text_data !! "serialized" = Some (PyStr s) ->
  FindMessageTypeByName type_name = Some d ->
  GetPrototype d = Some p ->
  pickle_setstate no_name = Throws (KeyError "type_name") /\
  pickle_setstate no_data = Throws (KeyError "serialized") /\
  pickle_setstate text_data
    = Throws (runtime_error "Unable to extract bytes contents!").
Proof.
  intros Hn1 Hn2 Hd2 Hn3 Hd3 Hpool Hproto.
  unfold pickle_setstate, dict_getitem.
  rewrite Hn1, Hn2, Hd2, Hn3, Hd3.
  rewrite (PyProtoAllocateMessage_by_name type_name d p Hpool Hproto).
  repeat split.
Qed.

(** *** Index checking with a given bound *)

(** X17: with a bound that is not negative, as Insert passes it, CheckIndex
    accepts exactly the indices of [0, allowed_size), whatever the size of
    the field; so with the bound n + 1 the index n, one past the end,
    passes, which it does not with the size taken from the field. *)
Theorem CheckIndex_given_bound (c : ProtoFieldContainerBase) (idx allowed_size : Z) :
  0 <= allowed_size ->
  (CheckIndex c idx allowed_size = Returns tt <-> 0 <= idx < allowed_size) /\
  CheckIndex c (Size c) (Size c + 1) = Returns tt /\
  throws (CheckIndex c (Size c) (-1)) = true.
Proof.
  intros Ha.
  assert (forall i a, 0 <= a ->
             (CheckIndex c i a = Returns tt <-> 0 <= i < a)) as Hgiven.
  { intros i a Hge. unfold CheckIndex.
    assert ((a <? 0) = false) as -> by (apply Z.ltb_ge; lia).
    destruct (i <? 0) eqn:Hneg; cbn [orb].
    - apply Z.ltb_lt in Hneg. split; [discriminate | lia].
    - apply Z.ltb_ge in Hneg. rewrite Z.geb_leb.
      destruct (a <=? i) eqn:Hhi.
      + apply Z.leb_le in Hhi. split; [discriminate | lia].
      + apply Z.leb_gt in Hhi. split; [lia | reflexivity]. }
  assert (0 <= Size c) as Hsize by (unfold Size; lia).
  split; [apply Hgiven; exact Ha|]. split.
  - apply Hgiven; lia.
  - rewrite (CheckIndex_rejects c (Size c) (-1)); [reflexivity | lia | lia].
Qed.

(** *** Any *)

Context {AL : AnyLibrary}.

(** X19: after a Pack that went through, TypeName gives the full name that was
    packed and Is answers whether a descriptor has that full name, when
    the library parses the URL it is given back into the name. *)
Theorem Any_Pack_then_TypeName (py_proto descriptor n f r target : PyObj)
    (full bytes : string) (any_proto : Any) (target_name : string) :
  py_getattr py_proto "DESCRIPTOR" = Some descriptor ->
  py_getattr descriptor "full_name" = Some n ->
  cast_string n = Returns full ->
  py_getattr py_proto "SerializeToString" = Some f ->
  py_call f = Returns r ->
  cast_string r = Returns bytes ->
  ParseAnyTypeUrl ("type.googleapis.com/" +:+ full) EmptyString = (true, full) ->
  py_getattr target "full_name" = Some (PyStr target_name) ->
  Any_TypeName (fst (Any_Pack py_proto any_proto)) = full /\
  Any_Is (fst (Any_Pack py_proto any_proto)) target
    = Returns (bool_decide (full = target_name)).
Proof.
  intros Hd Hn Hfull Hf Hr Hbytes Hparse Htarget.
  assert (fst (Any_Pack py_proto any_proto)
          = {| type_url := "type.googleapis.com/" +:+ full; value := bytes |}) as ->.
  { unfold Any_Pack, AnyPackFromPyProto, ebind, elift, eret.
    unfold PyProtoFullName, PyProtoSerializeToString.
    rewrite Hd, Hn, Hfull, Hf, Hr, Hbytes. reflexivity. }
  unfold Any_TypeName, Any_Is. cbn [type_url]. rewrite Hparse. cbn [snd negb].
  rewrite Htarget. split; reflexivity.
Qed.

(** X20: Is looks at the descriptor only after the type URL has parsed: given
    an object without full_name it answers false when the URL does not
    parse, and throws when it does. *)
Theorem Any_Is_without_full_name (self : Any) (descriptor : PyObj) :
  py_getattr descriptor "full_name" = None ->
  (fst (ParseAnyTypeUrl (type_url self) EmptyString) = false ->
   Any_Is self descriptor = Returns false) /\
  (fst (ParseAnyTypeUrl (type_url self) EmptyString) = true ->
   throws (Any_Is self descriptor) = true).
Proof.
  intros Hnone. unfold Any_Is.
  destruct (ParseAnyTypeUrl (type_url self) EmptyString) as [ok name].
  cbn [fst]. split; intros ->; cbn [negb]; [reflexivity|].
  rewrite Hnone. reflexivity.
Qed.

End MoreBridgeFacts.

(** ** More properties of DefConstantProperty *)

Section MoreConstantPropertyFacts.
Context {Class Return : Type}.
Implicit Types (h : PyHeap Class Return) (generator : Class -> Return).
Implicit Types (props : string -> Class -> Return).

(** Where a logged invocation comes from, for one read. *)
Lemma wrapper_log props name pyinst h x :
  x ∈ generator_log (fst (DefConstantProperty_wrapper name (props name) pyinst h)) ->
  x ∈ generator_log h \/
  (x = (pyinst, name) /\
   attr_dict h !! (pyinst, "_cache_" +:+ name) = None /\
   is_Some (instance_of h !! pyinst)).
Proof.
  destruct (attr_dict h !! (pyinst, "_cache_" +:+ name)) as [r|] eqn:Hcache.
  { rewrite (wrapper_cached _ _ _ _ _ Hcache). auto. }
  destruct (instance_of h !! pyinst) as [c|] eqn:Hlive.
  2:{ rewrite (wrapper_dead _ _ _ _ Hcache Hlive). auto. }
  rewrite (wrapper_first _ _ _ _ _ Hcache Hlive). cbn [fst generator_log].
  intros Hin. apply elem_of_cons in Hin. destruct Hin as [-> | Hin]; eauto.
Qed.

Lemma wrapper_log_length props name pyinst h :
  (length (generator_log (fst (DefConstantProperty_wrapper name (props name) pyinst h)))
   <= S (length (generator_log h)))%nat.
Proof.
  destruct (attr_dict h !! (pyinst, "_cache_" +:+ name)) as [r|] eqn:Hcache.
  { rewrite (wrapper_cached _ _ _ _ _ Hcache). cbn. lia. }
  destruct (instance_of h !! pyinst) as [c|] eqn:Hlive.
  2:{ rewrite (wrapper_dead _ _ _ _ Hcache Hlive). cbn. lia. }
  rewrite (wrapper_first _ _ _ _ _ Hcache Hlive). cbn. lia.
Qed.

Lemma read_trace_log props trace h :
  (length (generator_log (fst (read_trace props trace h)))
   <= length (generator_log h) + length trace)%nat /\
  forall o name,
    (o, name) ∈ generator_log (fst (read_trace props trace h)) ->
    (o, name) ∈ generator_log h \/
    ((name, o) ∈ trace /\
     attr_dict h !! (o, "_cache_" +:+ name) = None /\
     is_Some (instance_of h !! o)).
Proof.
  revert h. induction trace as [|[n1 o1] rest IH]; intros h.
  - cbn. split; [lia | auto].
  - rewrite read_trace_cons. cbn [fst length].
    pose proof (wrapper_step props n1 o1 h) as Hstep.
    pose proof (wrapper_log props n1 o1 h) as Hlog.
    pose proof (wrapper_log_length props n1 o1 h) as Hlen.
    destruct (DefConstantProperty_wrapper n1 (props n1) o1 h) as [h1 out].
    cbn [fst] in *. destruct Hstep as ((Hinst & Hsub & _) & _).
    destruct (IH h1) as [IHlen IHlog]. split; [lia|].
    intros o name Hin. destruct (IHlog o name Hin) as [Hold | (Htr & Hnone & Hlive)].
    + destruct (Hlog _ Hold) as [? | (Heq & ? & ?)]; [auto|].
      injection Heq as -> ->. right. split; [apply list_elem_of_here | auto].
    + right. split; [apply list_elem_of_further; exact Htr|]. split.
      * eapply lookup_weaken_None; eassumption.
      * rewrite <- Hinst. exact Hlive.
Qed.

(** X21: generators run only for reads: starting with no invocation logged, a
    run of reads invokes generators at most as often as it reads, and each
    invocation is for a property read in the run on a live wrapper that
    had no cache attribute for it at the start. *)
Theorem DefConstantProperty_invocations (props : string -> Class -> Return)
    (trace : list (string * ref)) (h : PyHeap Class Return) :
  generator_log h = [] ->
  (length (generator_log (fst (read_trace props trace h))) <= length trace)%nat /\
  forall o name,
    (o, name) ∈ generator_log (fst (read_trace props trace h)) ->
    (name, o) ∈ trace /\
    attr_dict h !! (o, "_cache_" +:+ name) = None /\
    is_Some (instance_of h !! o).
Proof.
  intros Hlog. destruct (read_trace_log props trace h) as [Hlen Horigin].
  rewrite Hlog in Hlen. cbn in Hlen. split; [exact Hlen|].
  intros o name Hin. destruct (Horigin o name Hin) as [Hold | Hnew]; [|exact Hnew].
  rewrite Hlog in Hold. apply elem_of_nil in Hold. destruct Hold.
Qed.

(** X22: the wrapper trusts the cache attribute: when every property read in a
    run already has its cache attribute on the object, however it got
    there, the run changes nothing in the store, invokes no generator, and
    each read returns what the attribute holds. *)
Theorem DefConstantProperty_preset (props : string -> Class -> Return)
    (trace : list (string * ref)) (h : PyHeap Class Return) :
  Forall (fun read => is_Some (attr_dict h !! (snd read, "_cache_" +:+ fst read)))
         trace ->
  fst (read_trace props trace h) = h /\
  forall j name pyinst r,
    trace !! j = Some (name, pyinst) ->
    attr_dict h !! (pyinst, "_cache_" +:+ name) = Some r ->
    snd (read_trace props trace h) !! j = Some (Returns r).
Proof.
  intros Hall. split.
  - induction Hall as [|[name pyinst] rest [r Hr] _ IH]; [reflexivity|].
    rewrite read_trace_cons. cbn [fst snd] in Hr.
    rewrite (wrapper_cached _ _ _ _ _ Hr). cbn [fst]. exact IH.
  - intros j name pyinst r Hj Hr. eapply read_trace_cached; eassumption.
Qed.

Lemma wrapper_objects props name pyinst h :
  heap_fresh h ->
  heap_fresh (fst (DefConstantProperty_wrapper name (props name) pyinst h)) /\
  objects h ⊆ objects (fst (DefConstantProperty_wrapper name (props name) pyinst h)).
Proof.
  intros Hfresh.
  destruct (attr_dict h !! (pyinst, "_cache_" +:+ name)) as [r|] eqn:Hcache.
  { rewrite (wrapper_cached _ _ _ _ _ Hcache). auto. }
  destruct (instance_of h !! pyinst) as [c|] eqn:Hlive.
  2:{ rewrite (wrapper_dead _ _ _ _ Hcache Hlive). auto. }
  rewrite (wrapper_first _ _ _ _ _ Hcache Hlive). cbn [fst]. split.
  - intros r Hsome. cbn [objects next_ref] in *.
    apply lookup_insert_is_Some in Hsome. destruct Hsome as [<- | [_ Hold]]; [lia|].
    specialize (Hfresh r Hold). lia.
  - cbn [objects]. apply insert_subseteq.
    destruct (objects h !! next_ref h) eqn:Hocc; [|reflexivity].
    assert (next_ref h < next_ref h)%positive by (apply Hfresh; eauto). lia.
Qed.

(** X23: Python objects are never replaced: in a store whose objects all sit
    below the next fresh reference, every object present before a run of
    reads is present, unchanged, after it, and the store is again such a
    store. *)
Theorem DefConstantProperty_keeps_objects (props : string -> Class -> Return)
    (trace : list (string * ref)) (h : PyHeap Class Return) :
  heap_fresh h ->
  heap_fresh (fst (read_trace props trace h)) /\
  forall r x, objects h !! r = Some x ->
              objects (fst (read_trace props trace h)) !! r = Some x.
Proof.
  revert h. induction trace as [|[n1 o1] rest IH]; intros h Hfresh.
  - cbn. auto.
  - rewrite read_trace_cons. cbn [fst].
    destruct (wrapper_objects props n1 o1 h Hfresh) as [Hfresh1 Hsub].
    destruct (IH _ Hfresh1) as [Hfresh2 Hkeep]. split; [exact Hfresh2|].
    intros r x Hr. apply Hkeep. eapply lookup_weaken; eassumption.
Qed.

End MoreConstantPropertyFacts.

(** ** Properties of the binding tables *)

(** X24: a repeated container class has add exactly when its elements are
    messages and __setitem__ exactly when they are not; MergeFrom and
    extend are the same member; and no name is defined twice. *)
Theorem RepeatedFieldBindings_spec (T : ElemType) :
  bound_member (RepeatedFieldBindings T) "add"
    = (if bool_decide (T = T_Message) then Some R_Add else None) /\
  bound_member (RepeatedFieldBindings T) "__setitem__"
    = (if bool_decide (T = T_Message) then None else Some R_SetItem) /\
  bound_member (RepeatedFieldBindings T) "MergeFrom" = Some R_Extend /\
  bound_member (RepeatedFieldBindings T) "extend" = Some R_Extend /\
  NoDup (fst <$> RepeatedFieldBindings T).
Proof.
  destruct T; (repeat split; try reflexivity);
    apply (bool_decide_unpack _); vm_compute; exact I.
Qed.

Lemma append_inj_right (p a b : string) : p +:+ a = p +:+ b -> a = b.
Proof. apply String.app_inj. Qed.

Lemma append_assoc_right (p a b : string) : (p +:+ a) +:+ b = p +:+ (a +:+ b).
Proof.
  induction p as [|c p IH]; [reflexivity|].
  change (String c ((p +:+ a) +:+ b) = String c (p +:+ (a +:+ b))).
  rewrite IH. reflexivity.
Qed.

(** X25: whatever the prefix, BindEachFieldType registers ten classes with ten
    different names, one for each element type, and the name of no
    iterator class is the name of a container class of the same prefix. *)
Theorem BindEachFieldType_names (name : string) :
  NoDup (fst <$> BindEachFieldType name) /\
  snd <$> BindEachFieldType name
    = [T_int32; T_int64; T_uint32; T_uint64; T_float; T_double; T_bool;
       T_string; T_Message; T_GenericEnum] /\
  forall n, n ∈ fst <$> BindEachFieldType name ->
            MapFieldIteratorBindings_name n ∉ fst <$> BindEachFieldType name.
Proof.
  set (suffixes := ["Int32"; "Int64"; "UInt32"; "UInt64"; "Float"; "Double";
                    "Bool"; "String"; "Message"; "Enum"]).
  assert (fst <$> BindEachFieldType name = String.append name <$> suffixes) as ->
    by reflexivity.
  split; [|split; [reflexivity|]].
  - apply NoDup_fmap_2.
    + intros a b. apply append_inj_right.
    + apply (bool_decide_unpack _). vm_compute. exact I.
  - intros n Hn Hit. apply list_elem_of_fmap in Hn. destruct Hn as (s1 & -> & Hs1).
    apply list_elem_of_fmap in Hit. destruct Hit as (s2 & Heq & Hs2).
    unfold MapFieldIteratorBindings_name in Heq. rewrite append_assoc_right in Heq.
    apply append_inj_right in Heq.
    assert (Forall (fun a => Forall (fun b => a +:+ "Iterator" <> b) suffixes)
                   suffixes) as Hall.
    { repeat (constructor; [repeat (constructor; [discriminate|]); constructor|]).
      constructor. }
    rewrite Forall_forall in Hall. specialize (Hall s1 Hs1).
    rewrite Forall_forall in Hall. exact (Hall s2 Hs2 Heq).
Qed.

(** ** Properties of EnumValuesByNumber *)

Lemma EnumValuesByNumber_fold (vs : list EnumValueDescriptor)
    (m : gmap Z EnumValueDescriptor) (n : Z) :
  foldl (fun result value_desc => <[ev_number value_desc := value_desc]> result)
        m vs !! n
  = match last (filter (fun v => ev_number v = n) vs) with
    | Some v => Some v
    | None => m !! n
    end.
Proof.
  revert m. induction vs as [|v rest IH]; intros m; [reflexivity|].
  cbn [foldl]. rewrite IH. rewrite filter_cons.
  destruct (decide (ev_number v = n)) as [Heq|Hne].
  - rewrite last_cons.
    destruct (last (filter (fun v0 => ev_number v0 = n) rest)); [reflexivity|].
    rewrite <- Heq. apply lookup_insert_eq.
  - destruct (last (filter (fun v0 => ev_number v0 = n) rest)); [reflexivity|].
    apply lookup_insert_ne. exact Hne.
Qed.

(** X1: the dict of values_by_number maps a number to the last value declared
    with it, and has no entry for a number no value has. *)
Theorem EnumValuesByNumber_lookup (e : EnumDescriptor) (n : Z) :
  EnumValuesByNumber e !! n
  = last (filter (fun v => ev_number v = n) (enum_values e)).
Proof.
  unfold EnumValuesByNumber. rewrite EnumValuesByNumber_fold.
  destruct (last _); [reflexivity | apply lookup_empty].
Qed.

Lemma EnumValuesByNumber_entry (e : EnumDescriptor) (n : Z) (v : EnumValueDescriptor) :
  EnumValuesByNumber e !! n = Some v -> ev_number v = n /\ v ∈ enum_values e.
Proof.
  unfold EnumValuesByNumber. rewrite EnumValuesByNumber_fold, lookup_empty.
  destruct (last _) as [w|] eqn:Hlast; [|discriminate].
  intros [= ->]. apply last_Some in Hlast. destruct Hlast as [l' Hl'].
  assert (v ∈ filter (fun v0 => ev_number v0 = n) (enum_values e)) as Hin.
  { rewrite Hl'. apply elem_of_app. right. apply list_elem_of_singleton. reflexivity. }
  apply list_elem_of_filter in Hin. exact Hin.
Qed.

Lemma EnumValuesByNumber_present (e : EnumDescriptor) (v : EnumValueDescriptor) :
  v ∈ enum_values e -> is_Some (EnumValuesByNumber e !! ev_number v).
Proof.
  intros Hin. unfold EnumValuesByNumber. rewrite EnumValuesByNumber_fold.
  destruct (last _) eqn:Hlast; [eauto|].
  apply last_None in Hlast.
  assert (v ∈ filter (fun v0 => ev_number v0 = ev_number v) (enum_values e)) as Hf.
  { apply list_elem_of_filter. auto. }
  rewrite Hlast in Hf. apply elem_of_nil in Hf. destruct Hf.
Qed.

(** X2: the keys are exactly the numbers of the declared values, and every
    entry holds a declared value whose number is its key. *)
Theorem EnumValuesByNumber_keys (e : EnumDescriptor) (n : Z) :
  (is_Some (EnumValuesByNumber e !! n) <->
   exists v, v ∈ enum_values e /\ ev_number v = n) /\
  (forall v, EnumValuesByNumber e !! n = Some v ->
             ev_number v = n /\ v ∈ enum_values e).
Proof.
  split; [split|].
  - intros [v Hv]. apply EnumValuesByNumber_entry in Hv. exists v. tauto.
  - intros (v & Hin & <-). apply EnumValuesByNumber_present. exact Hin.
  - apply EnumValuesByNumber_entry.
Qed.

Lemma EnumValuesByNumber_fold_size (vs : list EnumValueDescriptor)
    (m : gmap Z EnumValueDescriptor) :
  NoDup (ev_number <$> vs) ->
  (forall v, v ∈ vs -> m !! ev_number v = None) ->
  size (foldl (fun result value_desc => <[ev_number value_desc := value_desc]> result)
              m vs)
  = (size m + length vs)%nat.
Proof.
  revert m. induction vs as [|v rest IH]; intros m Hnd Hfresh.
  - cbn. lia.
  - cbn [foldl length]. rewrite fmap_cons in Hnd. apply NoDup_cons in Hnd.
    destruct Hnd as [Hv Hnd]. rewrite IH; [|exact Hnd|].
    + rewrite map_size_insert_None; [lia|]. apply Hfresh. apply elem_of_cons. auto.
    + intros w Hw. rewrite lookup_insert_ne.
      * apply Hfresh. apply elem_of_cons. auto.
      * intros Heq. apply Hv. rewrite Heq. apply list_elem_of_fmap_2. exact Hw.
Qed.

(** X3: without aliases the dict has one entry per declared value, and every
    declared value is found under its number. *)
Theorem EnumValuesByNumber_no_alias (e : EnumDescriptor) :
  NoDup (ev_number <$> enum_values e) ->
  size (EnumValuesByNumber e) = length (enum_values e) /\
  (forall v, v ∈ enum_values e -> EnumValuesByNumber e !! ev_number v = Some v).
Proof.
  intros Hnd. split.
  - unfold EnumValuesByNumber. rewrite EnumValuesByNumber_fold_size.
    + rewrite map_size_empty. reflexivity.
    + exact Hnd.
    + intros v _. apply lookup_empty.
  - intros v Hin.
    destruct (EnumValuesByNumber_present e v Hin) as [w Hw].
    destruct (EnumValuesByNumber_entry e _ w Hw) as [Hnum Hwin].
    rewrite Hw. f_equal.
    apply list_elem_of_lookup_1 in Hin. destruct Hin as [i Hi].
    apply list_elem_of_lookup_1 in Hwin. destruct Hwin as [j Hj].
    assert (i = j) as ->.
    { eapply NoDup_lookup; [exact Hnd| |].
      - rewrite list_lookup_fmap, Hi. reflexivity.
      - rewrite list_lookup_fmap, Hj. cbn. rewrite Hnum. reflexivity. }
    congruence.
Qed.


(** ** The definitions run on the small runtime *)

Import Toy.

(** The keyword m on a fresh Pair. *)
Lemma ProtoInitAttrs_map_keyword_ignored_witness :
  GetFieldDescriptor empty_pair "m" = Returns fd_m /\
  is_map fd_m = true /\
  ProtoInitAttrs map_kwargs empty_pair = (empty_pair, Returns tt).
Proof.
  split; [reflexivity|]. split; [reflexivity|].
  apply (ProtoInitAttrs_map_keyword_ignored (P2 := runtime) empty_pair "m" _ fd_m); reflexivity.
Defined.

(** make_wrapped_c_proto("pkg.Pair", m={"k": 9}) returns the message that
    make_wrapped_c_proto("pkg.Pair") returns, with no entry in m. *)
Example make_wrapped_c_proto_map_keyword :
  PyProtoAllocateMessage (PyStr "pkg.Pair") map_kwargs = Returns empty_pair /\
  PyProtoAllocateMessage (PyStr "pkg.Pair") [] = Returns empty_pair /\
  FieldSize empty_pair fd_m = 0%nat.
Proof. repeat split. Qed.

(** The group field g of a fresh Legacy. *)
Lemma ProtoSetAttr_group_reaches_handler_witness :
  GetFieldDescriptor empty_legacy "g" = Returns fd_g /\
  category fd_g = T_Message /\
  ProtoSetAttr "g" PyNone empty_legacy
    = SetProtoSingularField T_Message fd_g PyNone empty_legacy.
Proof.
  split; [reflexivity|].
  apply (ProtoSetAttr_group_reaches_handler (P2 := runtime) empty_legacy "g" PyNone fd_g);
    reflexivity.
Defined.

(** Assigning to the group field g goes through and writes the message,
    while assigning to the message field sub of the same type is refused. *)
Example ProtoSetAttr_group_and_message :
  ProtoSetAttr "g" PyNone empty_legacy
    = ({| desc := Legacy; wire := "g" |}, Returns tt) /\
  throws (snd (ProtoSetAttr "sub" PyNone empty_legacy)) = true /\
  fst (ProtoSetAttr "sub" PyNone empty_legacy) = empty_legacy.
Proof. repeat split. Qed.

(** C3 as stated fails: on a proxy of length 3 the index -1 lies in
    [-3, 3), and CheckIndex throws out_of_range for it. *)
Lemma CheckIndex_negative_index_throws :
  Size three_xs = 3 /\
  - Size three_xs <= -1 < Size three_xs /\
  CheckIndex three_xs (-1) (-1) = Throws (out_of_range "Bad index: -1 (max: 2)").
Proof.
  assert (Size three_xs = 3) as Hsize by reflexivity.
  rewrite Hsize. split; [reflexivity|]. split; [lia | reflexivity].
Qed.

(** The last valid index of the same proxy. *)
Lemma CheckIndex_range_witness :
  (CheckIndex three_xs 2 (-1) = Returns tt <-> 0 <= 2 < Size three_xs) /\
  (2 < 0 \/ Size three_xs <= 2 ->
   exists what, CheckIndex three_xs 2 (-1) = Throws (out_of_range what)).
Proof. apply (CheckIndex_range (P2 := runtime) three_xs 2 (-1)). lia. Defined.

(** make_wrapped_c_proto("pkg.DoesNotExist") and make_wrapped_c_proto(5). *)
Lemma PyProtoAllocateMessage_errors_witness :
  PyProtoAllocateMessage (PyStr "pkg.DoesNotExist") []
    = Throws (runtime_error "Proto Descriptor not found: pkg.DoesNotExist") /\
  PyProtoAllocateMessage (PyInt 5) []
    = Throws (invalid_argument "Could not get the name of the proto.").
Proof.
  apply (PyProtoAllocateMessage_errors (P2 := runtime) "pkg.DoesNotExist" (PyInt 5) []);
    reflexivity.
Defined.

(** make_wrapped_c_proto(b"pkg.Pair"): the name looked up is the text of
    the bytes object, which the pool does not know. *)
Example make_wrapped_c_proto_of_bytes :
  PyProtoAllocateMessage (PyBytes "pkg.Pair") []
    = Throws (runtime_error "Proto Descriptor not found: b'pkg.Pair'") /\
  bytes_repr "it's" = "b" +:+ dquote +:+ "it's" +:+ dquote /\
  bytes_repr (String (Ascii.ascii_of_nat 255) (String (Ascii.ascii_of_nat 10) "a"))
    = String "b" (String "'" (String (Ascii.ascii_of_nat 92) "xff"
        +:+ String (Ascii.ascii_of_nat 92) "na'")).
Proof. repeat split. Qed.


(** Unpickling bytes that stop parsing after the first entry. *)
Lemma unpickle_ignores_parse_failure_witness :
  snd (ParseFromString (New empty_pair) "a!x") = false /\
  unpickle (PyDict bad_state) = Returns {| desc := Pair; wire := "a" |} /\
  throws (unpickle (PyDict bad_state)) = false.
Proof.
  split; [reflexivity|].
  apply (unpickle_ignores_parse_failure (P2 := runtime) bad_state "pkg.Pair" "a!x" Pair empty_pair);
    reflexivity.
Defined.

(** Packing a native Pair, and packing the integer 5. *)
Lemma Any_Pack_spec_witness :
  let any_proto := {| type_url := "old"; value := "old" |} in
  Any_Pack (native_pair "ax") any_proto
    = ({| type_url := "type.googleapis.com/pkg.Pair"; value := "ax" |},
       Returns tt) /\
  Any_Pack (PyInt 5) any_proto
    = (any_proto, Throws (invalid_argument "Failed to pack Any proto.")).
Proof.
  apply (Any_Pack_spec (P2 := runtime) (native_pair "ax")
           (PyObject {["full_name" := PyStr "pkg.Pair"]}) (PyStr "pkg.Pair")
           (PyMethod (Returns (PyBytes "ax"))) (PyBytes "ax") (PyInt 5)
           "pkg.Pair" "ax");
    reflexivity.
Defined.

(** A wrapped message packs like a native one. *)
Example Any_Pack_wrapped :
  Any_Pack (PyWrapped {| desc := Pair; wire := "ax" |})
           {| type_url := EmptyString; value := EmptyString |}
    = ({| type_url := "type.googleapis.com/pkg.Pair"; value := "ax" |},
       Returns tt).
Proof. reflexivity. Qed.

(** The generator of values_by_number on an enum with an alias: the later
    value of number 0 is the one kept. *)
Example EnumValuesByNumber_Color :
  EnumValuesByNumber Color !! 0 = Some {| ev_name := "CRIMSON"; ev_number := 0 |} /\
  EnumValuesByNumber Color !! 1 = Some {| ev_name := "GREEN"; ev_number := 1 |} /\
  size (EnumValuesByNumber Color) = 2%nat.
Proof. vm_compute. repeat split. Qed.

(** The caching theorem on three reads of values_by_number. *)
Lemma DefConstantProperty_caches_witness :
  NoDup (generator_log (fst (read_trace enum_props three_reads heap0))) /\
  (forall j name pyinst c,
      three_reads !! j = Some (name, pyinst) ->
      instance_of heap0 !! pyinst = Some c ->
      exists r,
        snd (read_trace enum_props three_reads heap0) !! j = Some (Returns r) /\
        attr_dict (fst (read_trace enum_props three_reads heap0))
          !! (pyinst, "_cache_" +:+ name) = Some r /\
        (forall r0, attr_dict heap0 !! (pyinst, "_cache_" +:+ name) = Some r0 ->
                    r = r0) /\
        (attr_dict heap0 !! (pyinst, "_cache_" +:+ name) = None ->
         (pyinst, name)
           ∈ generator_log (fst (read_trace enum_props three_reads heap0)) /\
         objects (fst (read_trace enum_props three_reads heap0)) !! r
           = Some (enum_props name c) /\
         (next_ref heap0 <= r
          < next_ref (fst (read_trace enum_props three_reads heap0)))%positive)) /\
  (forall i j name pyinst r,
      (i <= j)%nat ->
      three_reads !! i = Some (name, pyinst) ->
      three_reads !! j = Some (name, pyinst) ->
      snd (read_trace enum_props three_reads heap0) !! i = Some (Returns r) ->
      snd (read_trace enum_props three_reads heap0) !! j = Some (Returns r)) /\
  (forall name pyinst c,
      (name, pyinst) ∈ three_reads ->
      instance_of heap0 !! pyinst = Some c ->
      exists r,
        attr_dict (fst (read_trace enum_props three_reads heap0))
          !! (pyinst, "_cache_" +:+ name) = Some r /\
        (attr_dict heap0 !! (pyinst, "_cache_" +:+ name) = None ->
         (pyinst, name)
           ∈ generator_log (fst (read_trace enum_props three_reads heap0)) /\
         objects (fst (read_trace enum_props three_reads heap0)) !! r
           = Some (enum_props name c))).
Proof.
  apply (DefConstantProperty_caches enum_props three_reads heap0).
  reflexivity.
Defined.

(** Three reads of values_by_number on a fresh wrapper: one generator call,
    one reference. *)
Example read_values_by_number_thrice :
  generator_log (fst (read_trace enum_props three_reads heap0))
    = [(1%positive, "values_by_number")] /\
  snd (read_trace enum_props three_reads heap0)
    = [Returns 2%positive; Returns 2%positive; Returns 2%positive] /\
  attr_dict (fst (read_trace enum_props three_reads heap0))
    !! (1%positive, "_cache_values_by_number") = Some 2%positive /\
  objects (fst (read_trace enum_props three_reads heap0)) !! 2%positive
    = Some (EnumValuesByNumber Color).
Proof. vm_compute. repeat split. Qed.

(** ** More runs on the small runtime *)

(** Shade has no alias. *)
Lemma EnumValuesByNumber_no_alias_witness :
  size (EnumValuesByNumber Shade) = length (enum_values Shade) /\
  (forall v, v ∈ enum_values Shade ->
             EnumValuesByNumber Shade !! ev_number v = Some v).
Proof.
  apply (EnumValuesByNumber_no_alias Shade).
  apply (bool_decide_unpack _). vm_compute. exact I.
Defined.

(** Color has the alias CRIMSON for number 0. *)
Example EnumValuesByNumber_alias :
  last (filter (fun v => ev_number v = 0) (enum_values Color))
    = Some {| ev_name := "CRIMSON"; ev_number := 0 |} /\
  size (EnumValuesByNumber Color) = 2%nat /\
  length (enum_values Color) = 3%nat.
Proof. vm_compute. repeat split. Qed.



(** a=3, m={"k": 9}, xs=[1] does what a=3, xs=[1] does. *)
Lemma ProtoInitAttrs_skips_map_keywords_witness :
  ProtoInitAttrs mixed_kwargs empty_pair
  = ProtoInitAttrs [("a", PyInt 3); ("xs", PyList [PyInt 1])] empty_pair.
Proof.
  apply (ProtoInitAttrs_skips_map_keywords (P2 := runtime) mixed_kwargs empty_pair);
    intros; reflexivity.
Defined.

(** Assigning to the repeated field xs of a Pair. *)
Lemma ProtoSetAttr_refused_witness :
  ProtoSetAttr "xs" (PyList []) empty_pair
  = (empty_pair,
     Throws (AttributeError ("Assignment not allowed to field " +:+ dquote +:+
                             "xs" +:+ dquote +:+
                             " in protocol message object."))).
Proof.
  apply (ProtoSetAttr_refused (P2 := runtime) empty_pair "xs" (PyList []) fd_xs);
    [reflexivity | right; left; reflexivity].
Defined.


(** The repeated field xs of a Pair: the keyword reaches the repeated
    handler, the assignment is refused. *)
Lemma ProtoSetAttr_vs_ProtoInitAttrs_witness :
  ProtoInitAttrs [("xs", PyList [])] empty_pair
    = ({| desc := Pair; wire := "x" |}, Returns tt) /\
  throws (snd (ProtoSetAttr "xs" (PyList []) empty_pair)) = true.
Proof.
  destruct (ProtoSetAttr_vs_ProtoInitAttrs (P2 := runtime)
              empty_pair "xs" (PyList []) fd_xs eq_refl eq_refl)
    as (_ & Hrepeated & _).
  exact (Hrepeated eq_refl).
Defined.

(** make_wrapped_c_proto given a wrapped Pair, and given a native one. *)
Lemma PyProtoAllocateMessage_by_instance_witness :
  PyProtoAllocateMessage (PyWrapped {| desc := Pair; wire := "ax" |}) []
    = Returns empty_pair /\
  PyProtoAllocateMessage (native_pair "ax") [] = Returns empty_pair.
Proof.
  apply (PyProtoAllocateMessage_by_instance (P2 := runtime)
           {| desc := Pair; wire := "ax" |} (native_pair "ax")
           (PyObject {["full_name" := PyStr "pkg.Pair"]}) "pkg.Pair" []);
    reflexivity.
Defined.

(** A wrapped Pair checked against two names, and the integer 5. *)
Lemma PyProtoCheckType_spec_witness :
  PyProtoCheckType (PyWrapped empty_pair) "pkg.Pair" = Returns true /\
  PyProtoCheckType (PyInt 5) "pkg.Pair" = Returns false.
Proof.
  apply (PyProtoCheckType_spec (P2 := runtime) empty_pair (PyInt 5) "pkg.Pair").
  reflexivity.
Defined.

Example PyProtoCheckType_other_type :
  PyProtoCheckType (PyWrapped empty_pair) "pkg.Legacy" = Returns false.
Proof. reflexivity. Qed.

(** Copying from a native Pair whose bytes stop parsing after one entry. *)
Lemma PyProtoAllocateAndCopyMessage_parses_witness :
  (snd (ParseFromString (New empty_pair) "a!x") = true ->
   PyProtoAllocateAndCopyMessage (native_pair "a!x")
     = Returns (fst (ParseFromString (New empty_pair) "a!x"))) /\
  (snd (ParseFromString (New empty_pair) "a!x") = false ->
   PyProtoAllocateAndCopyMessage (native_pair "a!x")
     = Throws (runtime_error "Error copying message.")).
Proof.
  apply (PyProtoAllocateAndCopyMessage_parses (P2 := runtime)
           (native_pair "a!x") (PyObject {["full_name" := PyStr "pkg.Pair"]})
           (PyMethod (Returns (PyBytes "a!x"))) (PyBytes "a!x")
           "pkg.Pair" "a!x" Pair empty_pair);
    reflexivity.
Defined.

(** The same bytes: copying reports them, unpickling does not. *)
Example copy_and_unpickle_of_bad_bytes :
  PyProtoAllocateAndCopyMessage (native_pair "a!x")
    = Throws (runtime_error "Error copying message.") /\
  unpickle (PyDict bad_state) = Returns {| desc := Pair; wire := "a" |} /\
  PyProtoAllocateAndCopyMessage (native_pair "ax")
    = Returns {| desc := Pair; wire := "ax" |}.
Proof. repeat split. Qed.

(** Copying a wrapped Pair with two entries. *)
Lemma PyProtoAllocateAndCopyMessage_wrapped_witness :
  exists copy,
    PyProtoAllocateAndCopyMessage (PyWrapped {| desc := Pair; wire := "ax" |})
      = Returns copy /\
    SerializeAsString copy = SerializeAsString {| desc := Pair; wire := "ax" |}.
Proof.
  apply (PyProtoAllocateAndCopyMessage_wrapped (P2 := runtime)
           {| desc := Pair; wire := "ax" |} Pair empty_pair);
    reflexivity.
Defined.

(** States without type_name, without serialized, and with text for
    serialized. *)
Lemma pickle_setstate_errors_witness :
  pickle_setstate {["serialized" := PyBytes "ax"]} = Throws (KeyError "type_name") /\
  pickle_setstate {["type_name" := PyStr "pkg.Pair"]} = Throws (KeyError "serialized") /\
  pickle_setstate (<["serialized" := PyStr "ax"]> {["type_name" := PyStr "pkg.Pair"]})
    = Throws (runtime_error "Unable to extract bytes contents!").
Proof.
  apply (pickle_setstate_errors (P2 := runtime)
           {["serialized" := PyBytes "ax"]}
           {["type_name" := PyStr "pkg.Pair"]}
           (<["serialized" := PyStr "ax"]> {["type_name" := PyStr "pkg.Pair"]})
           "pkg.Pair" "ax" Pair empty_pair);
    reflexivity.
Defined.

(** The bound 4 on the proxy of length 3. *)
Lemma CheckIndex_given_bound_witness :
  (CheckIndex three_xs 3 4 = Returns tt <-> 0 <= 3 < 4) /\
  CheckIndex three_xs (Size three_xs) (Size three_xs + 1) = Returns tt /\
  throws (CheckIndex three_xs (Size three_xs) (-1)) = true.
Proof. apply (CheckIndex_given_bound (P2 := runtime) three_xs 3 4). lia. Defined.

(** Packing an object that has a descriptor but cannot serialize. *)
Lemma AnyPackFromPyProto_without_SerializeToString_witness :
  AnyPackFromPyProto mute_native {| type_url := "old"; value := "old" |}
  = ({| type_url := "type.googleapis.com/pkg.Pair"; value := "old" |},
     Throws (invalid_argument "Passed python object is not a proto.")).
Proof.
  apply (AnyPackFromPyProto_without_SerializeToString (P2 := runtime)
           mute_native (PyObject {["full_name" := PyStr "pkg.Pair"]})
           (PyStr "pkg.Pair") "pkg.Pair" {| type_url := "old"; value := "old" |});
    reflexivity.
Defined.

(** Pack a native Pair, then ask for the type name and for Is(Pair). *)
Lemma Any_Pack_then_TypeName_witness :
  let packed := fst (Any_Pack (native_pair "ax")
                              {| type_url := EmptyString; value := EmptyString |}) in
  Any_TypeName packed = "pkg.Pair" /\
  Any_Is packed (PyDescriptorView Pair) = Returns true.
Proof.
  apply (Any_Pack_then_TypeName (P2 := runtime) (native_pair "ax")
           (PyObject {["full_name" := PyStr "pkg.Pair"]}) (PyStr "pkg.Pair")
           (PyMethod (Returns (PyBytes "ax"))) (PyBytes "ax")
           (PyDescriptorView Pair) "pkg.Pair" "ax"
           {| type_url := EmptyString; value := EmptyString |} "pkg.Pair");
    reflexivity.
Defined.

(** Is on an empty Any, given the integer 5. *)
Lemma Any_Is_without_full_name_witness :
  (fst (ParseAnyTypeUrl EmptyString EmptyString) = false ->
   Any_Is {| type_url := EmptyString; value := EmptyString |} (PyInt 5)
     = Returns false) /\
  (fst (ParseAnyTypeUrl EmptyString EmptyString) = true ->
   throws (Any_Is {| type_url := EmptyString; value := EmptyString |} (PyInt 5))
     = true).
Proof.
  apply (Any_Is_without_full_name (P2 := runtime)
           {| type_url := EmptyString; value := EmptyString |} (PyInt 5)).
  reflexivity.
Defined.

Example Any_Is_on_number :
  Any_Is {| type_url := EmptyString; value := EmptyString |} (PyInt 5)
    = Returns false /\
  throws (Any_Is {| type_url := "type.googleapis.com/pkg.Pair"; value := EmptyString |}
                 (PyInt 5)) = true.
Proof. split; reflexivity. Qed.

(** Three reads on the fresh wrapper: one invocation. *)
Lemma DefConstantProperty_invocations_witness :
  (length (generator_log (fst (read_trace enum_props three_reads heap0)))
   <= length three_reads)%nat /\
  forall o name,
    (o, name) ∈ generator_log (fst (read_trace enum_props three_reads heap0)) ->
    (name, o) ∈ three_reads /\
    attr_dict heap0 !! (o, "_cache_" +:+ name) = None /\
    is_Some (instance_of heap0 !! o).
Proof.
  apply (DefConstantProperty_invocations enum_props three_reads heap0).
  reflexivity.
Defined.

(** Three reads where reference 7 was put under the cache attribute. *)
Lemma DefConstantProperty_preset_witness :
  fst (read_trace enum_props three_reads preset_heap) = preset_heap /\
  forall j name pyinst r,
    three_reads !! j = Some (name, pyinst) ->
    attr_dict preset_heap !! (pyinst, "_cache_" +:+ name) = Some r ->
    snd (read_trace enum_props three_reads preset_heap) !! j = Some (Returns r).
Proof.
  apply (DefConstantProperty_preset enum_props three_reads preset_heap).
  repeat constructor; exists 7%positive; reflexivity.
Defined.

Example read_preset_thrice :
  snd (read_trace enum_props three_reads preset_heap)
    = [Returns 7%positive; Returns 7%positive; Returns 7%positive] /\
  generator_log (fst (read_trace enum_props three_reads preset_heap)) = [].
Proof. vm_compute. split; reflexivity. Qed.

(** Three more reads on the store that holds the cached dict. *)
Lemma DefConstantProperty_keeps_objects_witness :
  heap_fresh (fst (read_trace enum_props three_reads cached_heap)) /\
  forall r x, objects cached_heap !! r = Some x ->
              objects (fst (read_trace enum_props three_reads cached_heap)) !! r
                = Some x.
Proof.
  apply (DefConstantProperty_keeps_objects enum_props three_reads cached_heap).
  intros r Hr. change (next_ref cached_heap) with 3%positive.
  destruct (decide (r = 2%positive)) as [-> | Hne]; [lia|].
  change (objects cached_heap) with
    (<[2%positive := EnumValuesByNumber Color]> (∅ : gmap positive _)) in Hr.
  rewrite lookup_insert_ne, lookup_empty in Hr by congruence.
  destruct Hr as [? Hr]. discriminate.
Defined.
